(** * Process monitoring dashboard ([process_dashboard.py])

    A shallow embedding of the dashboard script: the config loader
    [load_app_config], the log aggregator [parse_log_files], the selection
    logic of the script body and the cumulative series it charts.

    Conventions of the model.
    - A Python [str] is a Rocq [string] holding its UTF-8 encoding, so ASCII
      text is itself and comparisons of whole strings agree with Python's.
    - A Python value that comes out of [json.loads] or [toml.load] is a
      [pyval]; a [dict] is kept as the list of its (key, value) pairs in
      source order, and a lookup takes the last pair of a key, as
      [dict(pairs)] does.
    - A call that can raise returns a [result]; the script body also emits
      user-interface calls, which are collected in order.
    - The two caches ([st.cache_data]) only delay the moment a change on disk
      becomes visible; a run is modelled against one snapshot of the disk. *)

From Stdlib Require Import String Ascii List ZArith NArith Bool Lia.
From Stdlib Require Import Permutation Sorted SpecFloat.
Import ListNotations.

Open Scope string_scope.
Open Scope list_scope.

(** ** Python values and exceptions *)

#[local] Set Warnings "-register-all".

Inductive pyval : Type :=
| PyNone
| PyBool (b : bool)
| PyInt (z : Z)
| PyFloat (f : spec_float)
| PyStr (s : string)
| PyList (items : list pyval)
| PyDict (pairs : list (string * pyval)).

Inductive exn : Type :=
| JSONDecodeError
| TomlDecodeError
| TypeError
| KeyError (key : string)
| AttributeError
| IndexError
| ValueError (msg : string)
| OSError (msg : string)
| RecursionError.

Inductive result (A : Type) : Type :=
| Ok (a : A)
| Raise (e : exn).

Arguments Ok {A} a.
Arguments Raise {A} e.

Definition bind {A B : Type} (r : result A) (k : A -> result B) : result B :=
  match r with
  | Ok a => k a
  | Raise e => Raise e
  end.

Notation "x <- c1 ;; c2" := (bind c1 (fun x => c2))
  (at level 61, c1 at next level, right associativity).

(** ** Strings *)

Module Str.

Definition bytes (s : string) : list N :=
  map N_of_ascii (list_ascii_of_string s).

Definition of_bytes (l : list N) : string :=
  string_of_list_ascii (map ascii_of_N l).

(** Characters for which [str.isspace] holds, by the length of their
    UTF-8 encoding: U+0009..U+000D, U+001C..U+0020; U+0085, U+00A0;
    U+1680, U+2000..U+200A, U+2028, U+2029, U+202F, U+205F, U+3000. *)
Definition ws1 (a : N) : bool :=
  ((9 <=? a) && (a <=? 13) || (28 <=? a) && (a <=? 32))%N.

Definition ws2 (a b : N) : bool :=
  ((a =? 0xC2) && ((b =? 0x85) || (b =? 0xA0)))%N.

Definition ws3 (a b c : N) : bool :=
  ((a =? 0xE1) && (b =? 0x9A) && (c =? 0x80)
   || (a =? 0xE2) && (b =? 0x80)
      && ((0x80 <=? c) && (c <=? 0x8A) || (c =? 0xA8) || (c =? 0xA9) || (c =? 0xAF))
   || (a =? 0xE2) && (b =? 0x81) && (c =? 0x9F)
   || (a =? 0xE3) && (b =? 0x80) && (c =? 0x80))%N.

(** Drops the white space at the head of a byte list; with [back] the list is
    a reversed string and the bytes of a character arrive last byte first. *)
Fixpoint drop_ws (back : bool) (l : list N) {struct l} : list N :=
  match l with
  | [] => l
  | a :: l1 =>
      if ws1 a then drop_ws back l1
      else match l1 with
           | [] => l
           | b :: l2 =>
               if (if back then ws2 b a else ws2 a b) then drop_ws back l2
               else match l2 with
                    | [] => l
                    | c :: l3 =>
                        if (if back then ws3 c b a else ws3 a b c)
                        then drop_ws back l3
                        else l
                    end
           end
  end.

(** [s.strip()] *)
Definition strip (s : string) : string :=
  of_bytes (rev (drop_ws true (rev (drop_ws false (bytes s))))).

(** [s.startswith(p)] is [String.prefix p s]; [s.endswith(suf)]: *)
Definition endswith (s suf : string) : bool :=
  (String.length suf <=? String.length s)%nat
  && String.eqb (substring (String.length s - String.length suf)
                           (String.length suf) s) suf.

(** [sub in s] for two strings. *)
Fixpoint contains (sub s : string) : bool :=
  prefix sub s
  || match s with
     | EmptyString => false
     | String _ s' => contains sub s'
     end.

(** [s.replace(old, new)] for a non-empty [old]: every occurrence, left to
    right, without overlap.  [skip] counts the characters of the occurrence
    being replaced that are still to be passed over. *)
Fixpoint replace_from (old new : string) (skip : nat) (s : string) : string :=
  match s with
  | EmptyString => EmptyString
  | String c s' =>
      match skip with
      | S k => replace_from old new k s'
      | O =>
          if prefix old s
          then new ++ replace_from old new (String.length old - 1) s'
          else String c (replace_from old new 0 s')
      end
  end.

Definition replace (old new s : string) : string := replace_from old new 0 s.

(** [sep.join(l)] *)
Definition join (sep : string) (l : list string) : string :=
  String.concat sep l.

(** [x in l] for a string [x] and a list of strings [l]. *)
Definition mem (x : string) (l : list string) : bool :=
  existsb (String.eqb x) l.

End Str.

(** [os.path.join(a, b)] on POSIX, for one component [b]. *)
Definition os_path_join (a b : string) : string :=
  if prefix "/" b then b
  else if String.eqb a "" || Str.endswith a "/" then a ++ b
  else a ++ "/" ++ b.

(** ** The JSON decoder

    [json.loads] as the log aggregator calls it: the default decoder, strict
    strings, integers of any size, numbers with a fraction or an exponent
    read as binary64 floats, and the constants [NaN], [Infinity] and
    [-Infinity] accepted.  [None] stands for [json.JSONDecodeError].  The
    limits of the interpreter (depth of recursion, digits of an integer)
    are not modelled: beyond them [json.loads] raises a [RecursionError] or
    a [ValueError], which this decoder never does.  What the aggregator lets
    out is therefore stated over any decoder, see [parse_log_files_with]. *)

Module Json.

Definition prec : Z := 53.
Definition emax : Z := 1024.

(** The binary64 float nearest to [m * 10 ^ e] (ties to even), signed by
    [neg]; [m] is not negative. *)
Definition float_of_decimal (neg : bool) (m e : Z) : spec_float :=
  match m with
  | Zpos p =>
      if (0 <=? e)%Z
      then binary_round prec emax neg (Z.to_pos (Zpos p * 10 ^ e)) 0
      else let '(q, e', l) :=
             SFdiv_core_binary prec emax (Zpos p) 0 (10 ^ (- e)) 0 in
           binary_round_aux prec emax neg q e' l
  | _ => S754_zero neg
  end.

(** The quotation mark, U+0022. *)
Definition quote : ascii := "034"%char.

Definition is_ws (c : ascii) : bool :=
  Ascii.eqb c " " || Ascii.eqb c "009" || Ascii.eqb c "010" || Ascii.eqb c "013".

Fixpoint skip_ws (s : string) : string :=
  match s with
  | EmptyString => s
  | String c r => if is_ws c then skip_ws r else s
  end.

Fixpoint strip_prefix (p s : string) : option string :=
  match p with
  | EmptyString => Some s
  | String a p' =>
      match s with
      | EmptyString => None
      | String b s' => if Ascii.eqb a b then strip_prefix p' s' else None
      end
  end.

Definition digit (c : ascii) : option Z :=
  let n := N_of_ascii c in
  if ((48 <=? n) && (n <=? 57))%N then Some (Z.of_N (n - 48)) else None.

Definition hexdigit (c : ascii) : option N :=
  let n := N_of_ascii c in
  (if (48 <=? n) && (n <=? 57) then Some (n - 48)
   else if (65 <=? n) && (n <=? 70) then Some (n - 55)
   else if (97 <=? n) && (n <=? 102) then Some (n - 87)
   else None)%N.

Definition hex4 (a b c d : ascii) : option N :=
  match hexdigit a, hexdigit b, hexdigit c, hexdigit d with
  | Some x, Some y, Some z, Some w => Some (((x * 16 + y) * 16 + z) * 16 + w)%N
  | _, _, _, _ => None
  end.

(** The UTF-8 encoding of a code point (a lone surrogate is encoded like any
    other three-byte code point). *)
Definition utf8 (cp : N) : string :=
  Str.of_bytes
    (if cp <? 0x80 then [cp]
     else if cp <? 0x800 then [0xC0 + cp / 64; 0x80 + cp mod 64]
     else if cp <? 0x10000 then
       [0xE0 + cp / 4096; 0x80 + (cp / 64) mod 64; 0x80 + cp mod 64]
     else [0xF0 + cp / 262144; 0x80 + (cp / 4096) mod 64;
           0x80 + (cp / 64) mod 64; 0x80 + cp mod 64])%N.

Definition is_high (cp : N) : bool := ((0xD800 <=? cp) && (cp <=? 0xDBFF))%N.
Definition is_low (cp : N) : bool := ((0xDC00 <=? cp) && (cp <=? 0xDFFF))%N.
Definition join_surrogates (hi lo : N) : N :=
  (0x10000 + (hi - 0xD800) * 0x400 + (lo - 0xDC00))%N.

Definition simple_escape (e : ascii) : option ascii :=
  if Ascii.eqb e quote || Ascii.eqb e "\" || Ascii.eqb e "/" then Some e
  else if Ascii.eqb e "b" then Some "008"%char
  else if Ascii.eqb e "f" then Some "012"%char
  else if Ascii.eqb e "n" then Some "010"%char
  else if Ascii.eqb e "r" then Some "013"%char
  else if Ascii.eqb e "t" then Some "009"%char
  else None.

Definition cons_str (p : string) (r : option (string * string))
  : option (string * string) :=
  match r with
  | Some (s, rest) => Some ((p ++ s)%string, rest)
  | None => None
  end.

(** The text of a string literal whose opening quote has been read, and what
    follows its closing quote. *)
Fixpoint scanstring (s : string) : option (string * string) :=
  match s with
  | EmptyString => None
  | String c r =>
      if Ascii.eqb c quote then Some (EmptyString, r)
      else if Ascii.eqb c "\" then
        match r with
        | EmptyString => None
        | String e r2 =>
            if Ascii.eqb e "u" then
              match r2 with
              | String h1 (String h2 (String h3 (String h4 r3))) =>
                  match hex4 h1 h2 h3 h4 with
                  | None => None
                  | Some hi =>
                      match r3 with
                      | String b1 (String b2 (String g1 (String g2
                          (String g3 (String g4 r4))))) =>
                          if is_high hi && Ascii.eqb b1 "\" && Ascii.eqb b2 "u"
                          then match hex4 g1 g2 g3 g4 with
                               | None => None
                               | Some lo =>
                                   if is_low lo
                                   then cons_str (utf8 (join_surrogates hi lo))
                                                 (scanstring r4)
                                   else cons_str (utf8 hi) (scanstring r3)
                               end
                          else cons_str (utf8 hi) (scanstring r3)
                      | _ => cons_str (utf8 hi) (scanstring r3)
                      end
                  end
              | _ => None
              end
            else match simple_escape e with
                 | Some ch => cons_str (String ch EmptyString) (scanstring r2)
                 | None => None
                 end
        end
      else if (N_of_ascii c <? 0x20)%N then None
      else cons_str (String c EmptyString) (scanstring r)
  end.

(** The decimal digits at the head of [s]: their value on top of [acc],
    their number on top of [n], and the rest. *)
Fixpoint digits (s : string) (acc n : Z) : Z * Z * string :=
  match s with
  | EmptyString => (acc, n, s)
  | String c r =>
      match digit c with
      | Some d => digits r (acc * 10 + d)%Z (n + 1)%Z
      | None => (acc, n, s)
      end
  end.

(** A number: an optional minus sign; a zero, or a digit from 1 to 9 and any
    digits; then, each optional, a point with one digit or more, and an
    [e] or [E] with an optional sign and one digit or more.  With neither
    the number is an [int], else a [float]. *)

Definition sign_part (s : string) : bool * string :=
  match s with
  | EmptyString => (false, s)
  | String c r => if Ascii.eqb c "-" then (true, r) else (false, s)
  end.

Definition int_part (s : string) : option (Z * string) :=
  match s with
  | EmptyString => None
  | String c r =>
      match digit c with
      | None => None
      | Some d =>
          if (d =? 0)%Z then Some (0%Z, r)
          else let '(v, _, rest) := digits s 0 0 in Some (v, rest)
      end
  end.

(** The value and the number of the digits after the point; no digit when
    there is no fraction. *)
Definition frac_part (s : string) : Z * Z * string :=
  match s with
  | EmptyString => (0%Z, 0%Z, s)
  | String dot rf =>
      if Ascii.eqb dot "."
      then let '(v, k, rest) := digits rf 0 0 in
           if (0 <? k)%Z then (v, k, rest) else (0%Z, 0%Z, s)
      else (0%Z, 0%Z, s)
  end.

Definition exp_part (s : string) : option Z * string :=
  match s with
  | EmptyString => (None, s)
  | String e re =>
      if Ascii.eqb e "e" || Ascii.eqb e "E"
      then let '(eneg, rd) :=
             match re with
             | EmptyString => (false, re)
             | String sg rr =>
                 if Ascii.eqb sg "-" then (true, rr)
                 else if Ascii.eqb sg "+" then (false, rr)
                 else (false, re)
             end in
           let '(v, k, rest) := digits rd 0 0 in
           if (0 <? k)%Z
           then (Some (if eneg then (- v)%Z else v), rest)
           else (None, s)
      else (None, s)
  end.

Definition match_number (s : string) : option (pyval * string) :=
  let '(neg, s1) := sign_part s in
  match int_part s1 with
  | None => None
  | Some (ip, r1) =>
      let '(fp, fn, r2) := frac_part r1 in
      let '(ex, r3) := exp_part r2 in
      match ex with
      | Some e =>
          Some (PyFloat (float_of_decimal neg (ip * 10 ^ fn + fp) (e - fn)), r3)
      | None =>
          if (0 <? fn)%Z
          then Some (PyFloat (float_of_decimal neg (ip * 10 ^ fn + fp) (- fn)), r3)
          else Some (PyInt (if neg then (- ip)%Z else ip), r3)
      end
  end.

Definition constants : list (string * pyval) :=
  [ ("null", PyNone); ("true", PyBool true); ("false", PyBool false);
    ("NaN", PyFloat S754_nan); ("Infinity", PyFloat (S754_infinity false));
    ("-Infinity", PyFloat (S754_infinity true)) ].

Fixpoint literal (cs : list (string * pyval)) (s : string)
  : option (pyval * string) :=
  match cs with
  | [] => None
  | (text, v) :: cs' =>
      match strip_prefix text s with
      | Some r => Some (v, r)
      | None => literal cs' s
      end
  end.

(** One value at the head of [s] ([scan_once]), the items of an array after
    its bracket, the pairs of an object after its brace.  Every call spends
    one unit of [n]; [loads] gives enough of it for the whole text. *)
Fixpoint scan_once (n : nat) (s : string) {struct n} : option (pyval * string) :=
  match n with
  | O => None
  | S n' =>
      match s with
      | EmptyString => None
      | String c r =>
          if Ascii.eqb c quote then
            match scanstring r with
            | Some (str, r') => Some (PyStr str, r')
            | None => None
            end
          else if Ascii.eqb c "{" then
            match skip_ws r with
            | EmptyString => None
            | String c1 r2 =>
                if Ascii.eqb c1 "}" then Some (PyDict [], r2)
                else match object_pairs n' (String c1 r2) with
                     | Some (ps, r') => Some (PyDict ps, r')
                     | None => None
                     end
            end
          else if Ascii.eqb c "[" then
            match skip_ws r with
            | EmptyString => None
            | String c1 r2 =>
                if Ascii.eqb c1 "]" then Some (PyList [], r2)
                else match array_items n' (String c1 r2) with
                     | Some (vs, r') => Some (PyList vs, r')
                     | None => None
                     end
            end
          else match literal constants s with
               | Some x => Some x
               | None => match_number s
               end
      end
  end
with array_items (n : nat) (s : string) {struct n}
  : option (list pyval * string) :=
  match n with
  | O => None
  | S n' =>
      match scan_once n' s with
      | None => None
      | Some (v, r) =>
          match skip_ws r with
          | EmptyString => None
          | String c r1 =>
              if Ascii.eqb c "]" then Some ([v], r1)
              else if Ascii.eqb c "," then
                match array_items n' (skip_ws r1) with
                | Some (vs, r') => Some (v :: vs, r')
                | None => None
                end
              else None
          end
      end
  end
with object_pairs (n : nat) (s : string) {struct n}
  : option (list (string * pyval) * string) :=
  match n with
  | O => None
  | S n' =>
      match s with
      | EmptyString => None
      | String q r =>
          if Ascii.eqb q quote then
            match scanstring r with
            | None => None
            | Some (key, r1) =>
                match skip_ws r1 with
                | EmptyString => None
                | String col r2 =>
                    if Ascii.eqb col ":" then
                      match scan_once n' (skip_ws r2) with
                      | None => None
                      | Some (v, r3) =>
                          match skip_ws r3 with
                          | EmptyString => None
                          | String c r4 =>
                              if Ascii.eqb c "}" then Some ([(key, v)], r4)
                              else if Ascii.eqb c "," then
                                match object_pairs n' (skip_ws r4) with
                                | Some (ps, r') => Some ((key, v) :: ps, r')
                                | None => None
                                end
                              else None
                          end
                      end
                    else None
                end
            end
          else None
      end
  end.

Definition loads (s : string) : option pyval :=
  match scan_once (2 * String.length s + 2) (skip_ws s) with
  | None => None
  | Some (v, r) =>
      match skip_ws r with
      | EmptyString => Some v
      | String _ _ => None
      end
  end.

End Json.

Definition json_loads (s : string) : result pyval :=
  match Json.loads s with
  | Some v => Ok v
  | None => Raise JSONDecodeError
  end.

(** ** Operators on Python values *)

(** [d[k]] on the pairs of a dict: the last pair of the key. *)
Fixpoint dict_get (k : string) (pairs : list (string * pyval)) : option pyval :=
  match pairs with
  | [] => None
  | (k', v) :: rest =>
      match dict_get k rest with
      | Some v' => Some v'
      | None => if String.eqb k k' then Some v else None
      end
  end.

(** [k in d] on the pairs of a dict. *)
Definition dict_has (k : string) (pairs : list (string * pyval)) : bool :=
  match dict_get k pairs with
  | Some _ => true
  | None => false
  end.

(** [v == s] for a string [s]. *)
Definition py_eq_str (v : pyval) (s : string) : bool :=
  match v with
  | PyStr t => String.eqb t s
  | _ => false
  end.

(** [k in v] for a string [k]: a key of a dict, an item of a list, a
    substring of a string; the other values are not containers. *)
Definition py_contains (k : string) (v : pyval) : result bool :=
  match v with
  | PyDict pairs => Ok (dict_has k pairs)
  | PyList items => Ok (existsb (fun x => py_eq_str x k) items)
  | PyStr s => Ok (Str.contains k s)
  | PyNone | PyBool _ | PyInt _ | PyFloat _ => Raise TypeError
  end.

(** [v[k]] for a string [k]: only a dict can be indexed by a string. *)
Definition py_getitem (v : pyval) (k : string) : result pyval :=
  match v with
  | PyDict pairs =>
      match dict_get k pairs with
      | Some x => Ok x
      | None => Raise (KeyError k)
      end
  | _ => Raise TypeError
  end.

(** [v == 0] *)
Definition py_eq_zero (v : pyval) : bool :=
  match v with
  | PyBool b => negb b
  | PyInt z => (z =? 0)%Z
  | PyFloat f => SFeqb f (S754_zero false)
  | PyNone | PyStr _ | PyList _ | PyDict _ => false
  end.

(** The truth value of [v], as [if v:] takes it. *)
Definition py_truthy (v : pyval) : bool :=
  match v with
  | PyNone => false
  | PyBool b => b
  | PyInt z => negb (z =? 0)%Z
  | PyFloat f => negb (SFeqb f (S754_zero false))
  | PyStr s => negb (String.eqb s "")
  | PyList items => match items with [] => false | _ :: _ => true end
  | PyDict pairs => match pairs with [] => false | _ :: _ => true end
  end.

(** ** The log aggregator *)

Inductive Status : Type := success | failure.

Record LogRecord : Type := mkRecord {
  timestamp : pyval;
  status : Status;
  process : string
}.

(** The disk as the aggregator sees it: the lines of the file at a path, as
    iterating over the open file yields them, or [None] when
    [os.path.exists] is false.  Every path that exists is taken to be a
    readable text file. *)
Definition FileSystem : Type := string -> option (list string).

Definition status_of (exit_code : pyval) : Status :=
  if py_eq_zero exit_code then success else failure.

(** The body of the [try] block, for the stripped, non-empty [line]. *)
Definition try_entry (name : string) (all_records : list LogRecord)
    (line : string) : result (list LogRecord) :=
  log_entry <- json_loads line ;;
  has_code <- py_contains "exit_code" log_entry ;;
  has_both <- (if has_code then py_contains "timestamp" log_entry else Ok false) ;;
  if has_both then
    exit_code <- py_getitem log_entry "exit_code" ;;
    let status := status_of exit_code in
    ts <- py_getitem log_entry "timestamp" ;;
    Ok (all_records ++ [mkRecord ts status name])
  else Ok all_records.

(** One turn of [for line in f]: only [json.JSONDecodeError] is caught. *)
Definition read_line (name : string) (all_records : list LogRecord)
    (line : string) : result (list LogRecord) :=
  let line := Str.strip line in
  if String.eqb line "" then Ok all_records
  else match try_entry name all_records line with
       | Raise JSONDecodeError => Ok all_records
       | r => r
       end.

Fixpoint read_lines (name : string) (lines : list string)
    (all_records : list LogRecord) : result (list LogRecord) :=
  match lines with
  | [] => Ok all_records
  | line :: rest =>
      all_records' <- read_line name all_records line ;;
      read_lines name rest all_records'
  end.

Fixpoint read_logs (fs : FileSystem) (log_dir : string) (names : list string)
    (all_records : list LogRecord) : result (list LogRecord) :=
  match names with
  | [] => Ok all_records
  | name :: rest =>
      let log_path := os_path_join log_dir (name ++ ".json") in
      match fs log_path with
      | None => read_logs fs log_dir rest all_records
      | Some lines =>
          all_records' <- read_lines name lines all_records ;;
          read_logs fs log_dir rest all_records'
      end
  end.

(** [parse_log_files(process_names, log_dir)]; the data frame it returns is
    the list of its rows, empty for [pd.DataFrame()]. *)
Definition parse_log_files (fs : FileSystem) (process_names : list string)
    (log_dir : string) : result (list LogRecord) :=
  read_logs fs log_dir process_names [].

(** The lines the aggregator passes over: blank ones, ones that are not
    JSON, and objects that lack one of the two keys. *)
Definition passed_over (line : string) : Prop :=
  Str.strip line = ""
  \/ json_loads (Str.strip line) = Raise JSONDecodeError
  \/ exists pairs,
       json_loads (Str.strip line) = Ok (PyDict pairs) /\
       (dict_get "exit_code" pairs = None \/ dict_get "timestamp" pairs = None).

(** ** The config loader *)

(** [v.get(k, default)]: only a dict has the method. *)
Definition py_get (v : pyval) (k : string) (default : pyval) : result pyval :=
  match v with
  | PyDict pairs =>
      Ok (match dict_get k pairs with
          | Some x => x
          | None => default
          end)
  | _ => Raise AttributeError
  end.

(** The body of the [try] block of [load_app_config]; [toml_load] is what
    [toml.load(CONFIG_FILE)] gives: the pairs of the top-level table, or the
    exception of a file that cannot be read or parsed. *)
Definition read_config (toml_load : result (list (string * pyval)))
  : result (pyval * pyval) :=
  pairs <- toml_load ;;
  let config := PyDict pairs in
  output_path <- py_getitem config "output_path" ;;
  log_dir <- py_getitem output_path "logs" ;;
  section <- py_get config "process_dashboard" (PyDict []) ;;
  default_processes <- py_get section "names" (PyList []) ;;
  Ok (log_dir, default_processes).

(** ** The series *)

(** A value of a [datetime64] column: nanoseconds since the epoch, or [None]
    for [NaT]. *)
Definition datetime : Type := option Z.

(** The order of an ascending sort with [na_position='last']. *)
Definition dt_leb (a b : datetime) : bool :=
  match a, b with
  | Some x, Some y => (x <=? y)%Z
  | _, None => true
  | None, Some _ => false
  end.

(** A row of the frame once its [timestamp] column is converted. *)
Record Row : Type := mkRow {
  row_timestamp : datetime;
  row_status : Status;
  row_process : string
}.

(** A row of the frame with its two cumulative columns. *)
Record SeriesRow : Type := mkSeriesRow {
  series_row : Row;
  success_count : Z;
  failure_count : Z
}.

Definition Status_eqb (a b : Status) : bool :=
  match a, b with
  | success, success | failure, failure => true
  | _, _ => false
  end.

(** [1] for [True], [0] for [False], as [cumsum] counts a boolean. *)
Definition as_int (b : bool) : Z := if b then 1%Z else 0%Z.

(** [cumsum] of a boolean column, from the running total [acc]. *)
Fixpoint cumsum_from (acc : Z) (flags : list bool) : list Z :=
  match flags with
  | [] => []
  | b :: rest =>
      let acc' := (acc + as_int b)%Z in
      acc' :: cumsum_from acc' rest
  end.

Definition cumsum (flags : list bool) : list Z := cumsum_from 0 flags.

(** [s.iloc[-1]] *)
Definition iloc_last (column : list Z) : result Z :=
  match rev column with
  | [] => Raise IndexError
  | x :: _ => Ok x
  end.

(** The calls the script makes to Streamlit, in the order it makes them. *)
Inductive ui : Type :=
| st_set_page_config
| st_title
| st_error (e : exn)
| st_sidebar_info (msg : string)
| st_sidebar_warning (msg : string)
| st_sidebar_multiselect (options : list string) (default : list pyval)
| st_warning (msg : string)
| st_markdown
| st_info (msg : string)
| st_metric (label : string) (value : Z)
| st_plotly_chart (series : list SeriesRow)
| st_dataframe (rows : list Row).

(** A piece of the script: what it showed, then its value or the exception
    that ended it. *)
Definition UI (A : Type) : Type := (list ui * result A)%type.

Definition emit (u : ui) : UI unit := ([u], Ok tt).

Definition lift {A : Type} (r : result A) : UI A := ([], r).

Definition ui_bind {A B : Type} (m : UI A) (k : A -> UI B) : UI B :=
  match m with
  | (shown, Ok a) => let '(shown', r) := k a in (shown ++ shown', r)
  | (shown, Raise e) => (shown, Raise e)
  end.

Notation "x <~ c1 ;; c2" := (ui_bind c1 (fun x => c2))
  (at level 61, c1 at next level, right associativity).
Notation "c1 ;;; c2" := (ui_bind c1 (fun _ => c2))
  (at level 61, right associativity).

(** [load_app_config()]: any exception of the body is shown and replaced by
    [(None, [])]. *)
Definition load_app_config (toml_load : result (list (string * pyval)))
  : UI (pyval * pyval) :=
  match read_config toml_load with
  | Ok r => ([], Ok r)
  | Raise e => ([st_error e], Ok (PyNone, PyList []))
  end.

(** ** The selection *)

(** [sys.argv[1:] if len(sys.argv) > 1 else None] *)
Definition cli_processes (argv : list string) : option (list string) :=
  if (1 <? List.length argv)%nat then Some (tl argv) else None.

(** Lines 74 to 79: the list the selection starts from, and the notice. *)
Definition initial_selection (argv : list string) (config_processes : pyval)
  : pyval * ui :=
  match cli_processes argv with
  | Some (p :: ps) =>
      (PyList (map PyStr (p :: ps)),
       st_sidebar_info "Monitoring processes specified via command line.")
  | Some [] | None =>
      (config_processes,
       st_sidebar_info
         "Monitoring default processes from config.toml [process_dashboard].")
  end.

(** The characters of a string: a byte that is not a continuation byte, with
    the continuation bytes after it. *)
Fixpoint chars_from (cur : list N) (l : list N) : list (list N) :=
  match l with
  | [] => match cur with [] => [] | _ :: _ => [cur] end
  | b :: rest =>
      if ((0x80 <=? b) && (b <? 0xC0))%N
      then chars_from (cur ++ [b]) rest
      else match cur with
           | [] => chars_from [b] rest
           | _ :: _ => cur :: chars_from [b] rest
           end
  end.

Definition chars (s : string) : list string :=
  map Str.of_bytes (chars_from [] (Str.bytes s)).

(** The keys of a dict, each once, in the order of their first pair. *)
Fixpoint dict_keys (seen : list string) (pairs : list (string * pyval))
  : list string :=
  match pairs with
  | [] => []
  | (k, _) :: rest =>
      if Str.mem k seen then dict_keys seen rest
      else k :: dict_keys (k :: seen) rest
  end.

(** The items [for p in v] runs over. *)
Definition py_iter (v : pyval) : result (list pyval) :=
  match v with
  | PyList items => Ok items
  | PyStr s => Ok (map PyStr (chars s))
  | PyDict pairs => Ok (map PyStr (dict_keys [] pairs))
  | PyNone | PyBool _ | PyInt _ | PyFloat _ => Raise TypeError
  end.

(** [p in l] for a list of strings [l]. *)
Definition py_in (p : pyval) (l : list string) : bool :=
  existsb (py_eq_str p) l.

(** The strings of a list that [', '.join] accepts. *)
Fixpoint py_strs (l : list pyval) : result (list string) :=
  match l with
  | [] => Ok []
  | PyStr s :: rest => ss <- py_strs rest ;; Ok (s :: ss)
  | _ :: _ => Raise TypeError
  end.

Fixpoint insert_sorted (x : string) (l : list string) : list string :=
  match l with
  | [] => [x]
  | y :: rest => if String.leb x y then x :: l else y :: insert_sorted x rest
  end.

(** [sorted(l)] for a list of strings. *)
Fixpoint sorted (l : list string) : list string :=
  match l with
  | [] => []
  | x :: rest => insert_sorted x (sorted rest)
  end.

(** Line 83 *)
Definition available_logs (files : list string) : list string :=
  map (Str.replace ".json" "") (filter (fun f => Str.endswith f ".json") files).

(** Line 84 *)
Definition sanitized_selection (initial : list pyval) (available : list string)
  : list pyval :=
  filter (fun p => py_in p available) initial.

(** Line 86 *)
Definition ignored_processes (initial : list pyval) (available : list string)
  : list pyval :=
  filter (fun p => negb (py_in p available)) initial.

(** What a run of the script finds around it. *)
Record World : Type := mkWorld {
  argv : list string;
  config_file : result (list (string * pyval));
  listdir : pyval -> result (list string);
  disk : FileSystem;
  multiselect : list string -> list pyval -> list string
}.

(** Lines 82 to 99: the processes selected in the sidebar. *)
Definition select_processes (w : World) (log_dir initial : pyval)
  : UI (list string) :=
  if py_truthy log_dir then
    files <~ lift (listdir w log_dir) ;;
    let available := available_logs files in
    items <~ lift (py_iter initial) ;;
    let sanitized := sanitized_selection items available in
    let ignored := ignored_processes items available in
    match ignored with
    | [] => ([], Ok tt)
    | _ :: _ =>
        names <~ lift (py_strs ignored) ;;
        emit (st_sidebar_warning
                ("Note: The following processes have no logs yet and were not pre-selected: "
                 ++ Str.join ", " names))
    end ;;;
    emit (st_sidebar_multiselect (sorted available) sanitized) ;;;
    ([], Ok (multiselect w (sorted available) sanitized))
  else
    emit (st_warning
            "Could not find log directory from config. The dashboard cannot function.") ;;;
    ([], Ok []).

(** ** The script *)

Definition set_timestamp (r : LogRecord) (t : datetime) : Row :=
  mkRow t (status r) (process r).

(** The frame after line 121: the records with their [timestamp] replaced by
    the converted column. *)
Definition frame (records : list LogRecord) (column : list datetime) : list Row :=
  map (fun rt => set_timestamp (fst rt) (snd rt)) (combine records column).

(** [df['status'] == s] *)
Definition status_is (s : Status) (df : list Row) : list bool :=
  map (fun r => Status_eqb (row_status r) s) df.

(** Lines 123 and 124: the two cumulative columns, set on the sorted frame. *)
Definition with_counters (df : list Row) : list SeriesRow :=
  let successes := cumsum (status_is success df) in
  let failures := cumsum (status_is failure df) in
  map (fun x => mkSeriesRow (fst x) (fst (snd x)) (snd (snd x)))
      (combine df (combine successes failures)).

Section Script.

(** The two calls into pandas whose results the script only passes on:
    [pd.to_datetime] on the [timestamp] column, and [sort_values] on the
    converted frame, ascending for the series and descending for the table
    of raw data. *)
Variable to_datetime : list pyval -> result (list datetime).
Variable sort_values : list Row -> list Row.
Variable sort_values_desc : list Row -> list Row.

(** Lines 121 to 124 *)
Definition build_series (records : list LogRecord) : result (list SeriesRow) :=
  column <- to_datetime (map timestamp records) ;;
  let df := sort_values (frame records column) in
  Ok (with_counters df).

(** Lines 115 to 158 *)
Definition main_dashboard (fs : FileSystem) (selected_processes : list string)
    (log_dir : pyval) : UI unit :=
  match selected_processes with
  | [] =>
      emit (st_info
              "Please select at least one process from the sidebar to begin monitoring.")
  | _ :: _ =>
      df <~ lift (match log_dir with
                  | PyStr d => parse_log_files fs selected_processes d
                  | _ => Raise TypeError
                  end) ;;
      match df with
      | _ :: _ =>
          series <~ lift (build_series df) ;;
          total_success <~ lift (iloc_last (map success_count series)) ;;
          total_failure <~ lift (iloc_last (map failure_count series)) ;;
          emit (st_metric "✅ Total Successes" total_success) ;;;
          emit (st_metric "❌ Total Failures" total_failure) ;;;
          emit (st_metric "Total Runs" (total_success + total_failure)) ;;;
          emit (st_plotly_chart series) ;;;
          emit (st_dataframe (sort_values_desc (map series_row series)))
      | [] =>
          emit (st_info ("Waiting for log data for: "
                         ++ Str.join ", " selected_processes ++ "..."))
      end
  end.

(** The whole script, top to bottom. *)
Definition script (w : World) : UI unit :=
  emit st_set_page_config ;;;
  emit st_title ;;;
  cfg <~ load_app_config (config_file w) ;;
  let '(log_dir, config_processes) := cfg in
  let '(initial, notice) := initial_selection (argv w) config_processes in
  emit notice ;;;
  selected_processes <~ select_processes w log_dir initial ;;
  emit st_markdown ;;;
  main_dashboard (disk w) selected_processes log_dir.

End Script.

(** The failures of the config the specification names: the file cannot be
    read or parsed, or the table lacks [output_path] or [output_path.logs];
    each with the exception the loader meets. *)
Inductive config_failure (toml_load : result (list (string * pyval)))
  : exn -> Prop :=
| config_unreadable (e : exn) :
    toml_load = Raise e -> config_failure toml_load e
| config_no_output_path (pairs : list (string * pyval)) :
    toml_load = Ok pairs ->
    dict_get "output_path" pairs = None ->
    config_failure toml_load (KeyError "output_path")
| config_no_logs (pairs output : list (string * pyval)) :
    toml_load = Ok pairs ->
    dict_get "output_path" pairs = Some (PyDict output) ->
    dict_get "logs" output = None ->
    config_failure toml_load (KeyError "logs").

(** The notice of the main area when there is nothing to chart. *)
Definition waiting_message (selected_processes : list string) : string :=
  match selected_processes with
  | [] => "Please select at least one process from the sidebar to begin monitoring."
  | _ :: _ => "Waiting for log data for: "
              ++ Str.join ", " selected_processes ++ "..."
  end.

(** ** What the script relies on from [sort_values]

    The frame is sorted with the default [kind], for which pandas promises a
    rearrangement of the rows in the order of the key.  The order in which
    it leaves rows of equal key is decided inside the library and is not
    part of this development. *)

Definition row_le (a b : Row) : Prop :=
  dt_leb (row_timestamp a) (row_timestamp b) = true.

Record sort_contract (sort : list Row -> list Row) : Prop := {
  sort_permutes : forall rows, Permutation (sort rows) rows;
  sort_orders : forall rows, StronglySorted row_le (sort rows)
}.

(** ** Sample instances of the pandas calls

    [to_datetime] for a column of integers (nanoseconds since the epoch) and
    [None]; an insertion sort that meets [sort_contract]; and a descending
    sort, [NaT] last. *)

Module Sample.

Fixpoint to_datetime (column : list pyval) : result (list datetime) :=
  match column with
  | [] => Ok []
  | PyInt n :: rest => ts <- to_datetime rest ;; Ok (Some n :: ts)
  | PyNone :: rest => ts <- to_datetime rest ;; Ok (None :: ts)
  | _ :: _ => Raise (ValueError "not a timestamp")
  end.

Section Insertion.

Variable before : Row -> Row -> bool.

Fixpoint insert (x : Row) (l : list Row) : list Row :=
  match l with
  | [] => [x]
  | y :: rest => if before x y then x :: l else y :: insert x rest
  end.

Fixpoint insertion_sort (l : list Row) : list Row :=
  match l with
  | [] => []
  | x :: rest => insert x (insertion_sort rest)
  end.

End Insertion.

Definition leb (a b : Row) : bool := dt_leb (row_timestamp a) (row_timestamp b).
Definition geb (a b : Row) : bool :=
  match row_timestamp a, row_timestamp b with
  | Some x, Some y => (y <=? x)%Z
  | _, None => true
  | None, Some _ => false
  end.

Definition sort_values : list Row -> list Row := insertion_sort leb.
Definition sort_values_desc : list Row -> list Row := insertion_sort geb.

End Sample.

(** ** Sample inputs *)

(** The text [s] with a quotation mark for each apostrophe, to write JSON. *)
Definition text (s : string) : string :=
  string_of_list_ascii
    (map (fun c => if Ascii.eqb c "'" then Json.quote else c)
         (list_ascii_of_string s)).

(** A line as iterating over a file yields it, with its line feed. *)
Definition line_of (s : string) : string :=
  (text s ++ String "010" EmptyString)%string.

Definition sample_line : string :=
  text "{'timestamp':'2024-01-01T00:00:00Z','exit_code':0}".

Definition sample_record : LogRecord :=
  mkRecord (PyStr "2024-01-01T00:00:00Z") success "alpha".

(** A disk holding the given lines at one path and nothing else. *)
Definition one_file (path : string) (lines : list string) : FileSystem :=
  fun p => if String.eqb p path then Some lines else None.

(** The log of the process [alpha]: a blank line, an object without the two
    fields, and a complete entry. *)
Definition alpha_log : list string :=
  [ line_of "";
    line_of "{'not':'relevant'}";
    line_of "{'timestamp':'2024-01-01T00:00:00Z','exit_code':0}" ].

(** The same log followed by a line that is valid JSON but not an object. *)
Definition alpha_log_then_null : list string :=
  alpha_log ++ [ line_of "null" ].

(** A log none of whose lines gives a record. *)
Definition barren_log : list string :=
  [ line_of ""; line_of "{'not':'relevant'}"; line_of "{'exit_code': 1";
    line_of "{'exit_code': 1}" ].

(** A run with two names on the command line and no config file. *)
Definition world_without_config : World :=
  mkWorld ["process_dashboard.py"; "svc1"; "svc2"]
          (Raise (OSError "config.toml: no such file"))
          (fun _ => Raise (OSError "no such directory"))
          (fun _ => None)
          (fun _ _ => []).

(** Three records out of order. *)
Definition three_records : list LogRecord :=
  [ mkRecord (PyInt 30) failure "alpha"; mkRecord (PyInt 10) success "beta";
    mkRecord (PyInt 20) success "alpha" ].

(** ** Readings of the aggregator, for comparison with the loops *)

(** The record a line stands for on its own: the line decodes to an object
    that holds both keys. *)
Definition record_of (name line : string) : option LogRecord :=
  match json_loads (Str.strip line) with
  | Ok (PyDict pairs) =>
      match dict_get "exit_code" pairs, dict_get "timestamp" pairs with
      | Some exit_code, Some ts => Some (mkRecord ts (status_of exit_code) name)
      | _, _ => None
      end
  | _ => None
  end.

Fixpoint records_of_lines (name : string) (lines : list string)
  : list LogRecord :=
  match lines with
  | [] => []
  | line :: rest =>
      match record_of name line with
      | Some r => r :: records_of_lines name rest
      | None => records_of_lines name rest
      end
  end.

Definition records_of_file (fs : FileSystem) (log_dir name : string)
  : list LogRecord :=
  match fs (os_path_join log_dir (name ++ ".json")) with
  | Some lines => records_of_lines name lines
  | None => []
  end.

(** ** The aggregator over any decoder

    Lines 41 to 64 once more, with [json.loads] left open.  What that call
    raises besides [json.JSONDecodeError] depends on the interpreter that
    runs it (a [ValueError] for an integer literal longer than its limit of
    digits, a [RecursionError] for deeper nesting than its stack allows), so
    what leaves the aggregator is stated for whatever the decoder does.
    With [json_loads] for the decoder these are the definitions above. *)

Section AnyDecoder.

Variable loads : string -> result pyval.

Definition try_entry_with (name : string) (all_records : list LogRecord)
    (line : string) : result (list LogRecord) :=
  log_entry <- loads line ;;
  has_code <- py_contains "exit_code" log_entry ;;
  has_both <- (if has_code then py_contains "timestamp" log_entry else Ok false) ;;
  if has_both then
    exit_code <- py_getitem log_entry "exit_code" ;;
    let status := status_of exit_code in
    ts <- py_getitem log_entry "timestamp" ;;
    Ok (all_records ++ [mkRecord ts status name])
  else Ok all_records.

Definition read_line_with (name : string) (all_records : list LogRecord)
    (line : string) : result (list LogRecord) :=
  let line := Str.strip line in
  if String.eqb line "" then Ok all_records
  else match try_entry_with name all_records line with
       | Raise JSONDecodeError => Ok all_records
       | r => r
       end.

Fixpoint read_lines_with (name : string) (lines : list string)
    (all_records : list LogRecord) : result (list LogRecord) :=
  match lines with
  | [] => Ok all_records
  | line :: rest =>
      all_records' <- read_line_with name all_records line ;;
      read_lines_with name rest all_records'
  end.

Fixpoint read_logs_with (fs : FileSystem) (log_dir : string)
    (names : list string) (all_records : list LogRecord)
  : result (list LogRecord) :=
  match names with
  | [] => Ok all_records
  | name :: rest =>
      let log_path := os_path_join log_dir (name ++ ".json") in
      match fs log_path with
      | None => read_logs_with fs log_dir rest all_records
      | Some lines =>
          all_records' <- read_lines_with name lines all_records ;;
          read_logs_with fs log_dir rest all_records'
      end
  end.

Definition parse_log_files_with (fs : FileSystem) (process_names : list string)
    (log_dir : string) : result (list LogRecord) :=
  read_logs_with fs log_dir process_names [].

End AnyDecoder.

(** The number of entries of a column of statuses that are [s]. *)
Definition tally (s : Status) (statuses : list Status) : Z :=
  Z.of_nat (List.length (filter (fun x => Status_eqb x s) statuses)).

(** A log with two complete entries around a line that is not JSON. *)
Definition beta_log : list string :=
  [ line_of "{'timestamp':10,'exit_code':1}";
    line_of "half a line";
    line_of "{'exit_code':0,'timestamp':20,'host':'b1'}" ].

(** A disk with the logs of [alpha] and [beta], and a log [gamma] that
    holds a number on a line of its own. *)
Definition three_logs : FileSystem :=
  fun p =>
    if String.eqb p "/logs/alpha.json" then Some alpha_log
    else if String.eqb p "/logs/beta.json" then Some beta_log
    else if String.eqb p "/logs/gamma.json" then Some [line_of "5"]
    else None.

(** Five records of three instants, two of them failures. *)
Definition five_records : list LogRecord :=
  [ mkRecord (PyInt 30) failure "alpha"; mkRecord (PyInt 10) success "beta";
    mkRecord (PyInt 20) success "alpha"; mkRecord (PyInt 10) failure "beta";
    mkRecord (PyInt 30) success "beta" ].

(** A [to_datetime] that rejects every column. *)
Definition to_datetime_rejects (column : list pyval) : result (list datetime) :=
  Raise (ValueError "unknown datetime string format").

(** The names of a listing are plain when [.json] occurs in none of them
    before the extension. *)
Definition plain_listing (files : list string) : Prop :=
  forall stem, In (stem ++ ".json")%string files ->
               Str.contains ".json" stem = false.

(** Whether the log file of a name is in the listing. *)
Definition has_log (files : list string) (name : string) : bool :=
  Str.mem (name ++ ".json") files.

(** A listing of a log directory, and a run with a good config on it. *)
Definition sample_listing : list string :=
  [ "beta.json"; "notes.txt"; "alpha.json"; "gamma.json" ].

Definition sample_config : list (string * pyval) :=
  [ ("output_path", PyDict [("logs", PyStr "/logs")]);
    ("process_dashboard", PyDict [("names", PyList [PyStr "alpha"; PyStr "zeta"])]) ].

Definition sample_world : World :=
  mkWorld ["process_dashboard.py"]
          (Ok sample_config)
          (fun _ => Ok sample_listing)
          three_logs
          (fun options default => ["beta"]).

(** The same run when the log directory does not exist. *)
Definition world_without_directory : World :=
  mkWorld ["process_dashboard.py"]
          (Ok sample_config)
          (fun _ => Raise (OSError "No such file or directory: /logs"))
          (fun _ => None)
          (fun options default => []).

(** A config whose path of logs is the empty string. *)
Definition world_with_empty_path : World :=
  mkWorld ["process_dashboard.py"]
          (Ok [("output_path", PyDict [("logs", PyStr "")])])
          (fun _ => Ok sample_listing)
          three_logs
          (fun options default => options).

(** A test that is enough for [plain_listing]. *)
Definition plain_listingb (files : list string) : bool :=
  forallb (fun f => negb (Str.endswith f ".json")
                    || negb (Str.contains ".json"
                               (substring 0 (String.length f - 5) f)))
          files.

(** Whether a value is a table of the config. *)
Definition is_table (v : pyval) : bool :=
  match v with
  | PyDict _ => true
  | _ => false
  end.

(** A config whose optional section is a string instead of a table. *)
Definition config_with_bad_section : list (string * pyval) :=
  [ ("output_path", PyDict [("logs", PyStr "/logs")]);
    ("process_dashboard", PyStr "alpha") ].

(** ** The decoder does not fail for want of fuel *)

Module JsonFacts.

Import Json.

Ltac break_hyp H :=
  match type of H with
  | context [match ?x with _ => _ end] => destruct x eqn:?
  | context [if ?x then _ else _] => destruct x eqn:?
  end.

Lemma skip_ws_length (s : string) :
  (String.length (skip_ws s) <= String.length s)%nat.
Proof.
  induction s as [| c r IH]; simpl; [lia |].
  destruct (is_ws c); simpl; lia.
Qed.

Lemma strip_prefix_length (p : string) :
  forall s r, strip_prefix p s = Some r ->
              String.length s = (String.length p + String.length r)%nat.
Proof.
  induction p as [| a p IH]; intros s r; simpl.
  - intros H; injection H as ->; reflexivity.
  - destruct s as [| b s]; [discriminate |].
    destruct (Ascii.eqb a b); [| discriminate].
    intros H. simpl. now rewrite (IH _ _ H).
Qed.

Lemma literal_shorter_in (cs : list (string * pyval)) (s : string)
    (v : pyval) (r : string) :
  Forall (fun tv => fst tv <> "") cs ->
  literal cs s = Some (v, r) ->
  (String.length r < String.length s)%nat.
Proof.
  induction cs as [| [text w] cs IH]; intros Hall; simpl; [discriminate |].
  inversion Hall as [| ? ? Htext Hrest]; subst. simpl in Htext.
  destruct (strip_prefix text s) as [r' |] eqn:E.
  - intros H; injection H as _ <-.
    apply strip_prefix_length in E.
    destruct text; [contradiction | simpl in E; lia].
  - now apply IH.
Qed.

Lemma literal_shorter (s : string) (v : pyval) (r : string) :
  literal constants s = Some (v, r) ->
  (String.length r < String.length s)%nat.
Proof.
  apply literal_shorter_in. unfold constants.
  repeat constructor; discriminate.
Qed.

Lemma digits_rest (s : string) :
  forall acc n v k r, digits s acc n = (v, k, r) ->
                      (String.length r <= String.length s)%nat.
Proof.
  induction s as [| c s IH]; intros acc n v k r; simpl.
  - intros H; injection H as _ _ <-; simpl; lia.
  - destruct (digit c).
    + intros H. apply IH in H. lia.
    + intros H; injection H as _ _ <-; simpl; lia.
Qed.

Lemma cons_str_some (p : string) (o : option (string * string))
    (x rest : string) :
  cons_str p o = Some (x, rest) -> exists y, o = Some (y, rest).
Proof.
  destruct o as [[y r'] |]; simpl; [| discriminate].
  intros H; injection H as _ <-. now exists y.
Qed.

Lemma scanstring_shorter :
  forall (k : nat) (s x r : string),
    (String.length s <= k)%nat ->
    scanstring s = Some (x, r) ->
    (String.length r < String.length s)%nat.
Proof.
  induction k as [| k IH]; intros s x r Hk H.
  - destruct s; [discriminate | simpl in Hk; lia].
  - destruct s as [| c s1]; [discriminate |].
    simpl in H. simpl in Hk.
    repeat (break_hyp H; try discriminate);
      try (injection H as _ <-; simpl; lia);
      apply cons_str_some in H as [y H]; apply IH in H; simpl in *; lia.
Qed.

Lemma sign_part_rest (s : string) :
  (String.length (snd (sign_part s)) <= String.length s)%nat.
Proof.
  destruct s as [| c r]; simpl; [lia |].
  destruct (Ascii.eqb c "-"); simpl; lia.
Qed.

Lemma int_part_shorter (s : string) (v : Z) (r : string) :
  int_part s = Some (v, r) -> (String.length r < String.length s)%nat.
Proof.
  destruct s as [| c s']; [discriminate |].
  unfold int_part.
  destruct (digit c) as [d |] eqn:Hd; [| discriminate].
  destruct (d =? 0)%Z.
  - intros H; injection H as _ <-; simpl; lia.
  - destruct (digits (String c s') 0 0) as [[v' k] rest] eqn:E.
    intros H; injection H as _ <-.
    cbn [digits] in E. rewrite Hd in E. apply digits_rest in E. simpl. lia.
Qed.

Lemma frac_part_rest (s : string) :
  (String.length (snd (frac_part s)) <= String.length s)%nat.
Proof.
  destruct s as [| c rf]; simpl; [lia |].
  destruct (Ascii.eqb c "."); simpl; [| lia].
  destruct (digits rf 0 0) as [[v k] rest] eqn:E. apply digits_rest in E.
  destruct (0 <? k)%Z; simpl; lia.
Qed.

Lemma exp_part_rest (s : string) :
  (String.length (snd (exp_part s)) <= String.length s)%nat.
Proof.
  destruct s as [| c re]; simpl; [lia |].
  destruct (Ascii.eqb c "e" || Ascii.eqb c "E"); simpl; [| lia].
  destruct re as [| sg rr].
  - simpl. lia.
  - destruct (Ascii.eqb sg "-"); [| destruct (Ascii.eqb sg "+")];
      match goal with
      | |- context [digits ?x 0%Z 0%Z] =>
          destruct (digits x 0 0) as [[v k] rest] eqn:E;
          apply digits_rest in E
      end;
      destruct (0 <? k)%Z; simpl in *; lia.
Qed.

Lemma match_number_shorter (s : string) (v : pyval) (r : string) :
  match_number s = Some (v, r) -> (String.length r < String.length s)%nat.
Proof.
  unfold match_number.
  pose proof (sign_part_rest s) as Hsign.
  destruct (sign_part s) as [neg s1]. simpl in Hsign.
  destruct (int_part s1) as [[ip r1] |] eqn:Hint; [| discriminate].
  apply int_part_shorter in Hint.
  pose proof (frac_part_rest r1) as Hfrac.
  destruct (frac_part r1) as [[fp fn] r2]. simpl in Hfrac.
  pose proof (exp_part_rest r2) as Hexp.
  destruct (exp_part r2) as [ex r3]. simpl in Hexp.
  destruct ex; [| destruct (0 <? fn)%Z];
    intros H; injection H as _ <-; lia.
Qed.

(** A scan that succeeds with some fuel consumes text, and succeeds alike
    with any fuel above twice the length of the text. *)
Lemma scan_enough :
  forall m : nat,
    (forall s v r,
        scan_once m s = Some (v, r) ->
        (String.length r < String.length s)%nat /\
        forall n, (2 * String.length s + 1 <= n)%nat ->
                  scan_once n s = Some (v, r)) /\
    (forall s vs r,
        array_items m s = Some (vs, r) ->
        (String.length r < String.length s)%nat /\
        forall n, (2 * String.length s + 2 <= n)%nat ->
                  array_items n s = Some (vs, r)) /\
    (forall s ps r,
        object_pairs m s = Some (ps, r) ->
        (String.length r < String.length s)%nat /\
        forall n, (2 * String.length s + 2 <= n)%nat ->
                  object_pairs n s = Some (ps, r)).
Proof.
  induction m as [| m (IHs & IHa & IHo)].
  { repeat split; intros; discriminate. }
  split; [| split].
  - (* scan_once *)
    intros s v r H. destruct s as [| c t]; [discriminate |].
    cbn [scan_once array_items object_pairs] in H.
    destruct (Ascii.eqb c quote) eqn:Hq.
    { destruct (scanstring t) as [[str r'] |] eqn:Hs; [| discriminate].
      injection H as <- <-.
      apply scanstring_shorter with (k := String.length t) in Hs as Hlen;
        [| lia].
      split; [simpl; lia |].
      intros [| n] Hn; [lia |]. cbn [scan_once array_items object_pairs]. now rewrite Hq, Hs. }
    destruct (Ascii.eqb c "{") eqn:Hb.
    { pose proof (skip_ws_length t) as Hws.
      destruct (skip_ws t) as [| c1 r2] eqn:Ht; [discriminate |].
      destruct (Ascii.eqb c1 "}") eqn:Hc.
      - injection H as <- <-. simpl in *. split; [lia |].
        intros [| n] Hn; [lia |]. cbn [scan_once array_items object_pairs]. now rewrite Hq, Hb, Ht, Hc.
      - destruct (object_pairs m (String c1 r2)) as [[ps r'] |] eqn:Ho;
          [| discriminate].
        injection H as <- <-. apply IHo in Ho as [Hlen Hfuel].
        simpl in *. split; [lia |].
        intros [| n] Hn; [lia |]. cbn [scan_once array_items object_pairs]. rewrite Hq, Hb, Ht, Hc.
        rewrite Hfuel; [reflexivity | lia]. }
    destruct (Ascii.eqb c "[") eqn:Hk.
    { pose proof (skip_ws_length t) as Hws.
      destruct (skip_ws t) as [| c1 r2] eqn:Ht; [discriminate |].
      destruct (Ascii.eqb c1 "]") eqn:Hc.
      - injection H as <- <-. simpl in *. split; [lia |].
        intros [| n] Hn; [lia |]. cbn [scan_once array_items object_pairs]. now rewrite Hq, Hb, Hk, Ht, Hc.
      - destruct (array_items m (String c1 r2)) as [[vs r'] |] eqn:Ha;
          [| discriminate].
        injection H as <- <-. apply IHa in Ha as [Hlen Hfuel].
        simpl in *. split; [lia |].
        intros [| n] Hn; [lia |]. cbn [scan_once array_items object_pairs]. rewrite Hq, Hb, Hk, Ht, Hc.
        rewrite Hfuel; [reflexivity | lia]. }
    destruct (literal constants (String c t)) as [[v' r'] |] eqn:Hl.
    { injection H as <- <-. split; [now apply literal_shorter in Hl |].
      intros [| n] Hn; [lia |]. cbn [scan_once array_items object_pairs]. now rewrite Hq, Hb, Hk, Hl. }
    split; [now apply match_number_shorter in H |].
    intros [| n] Hn; [lia |]. cbn [scan_once array_items object_pairs]. now rewrite Hq, Hb, Hk, Hl.
  - (* array_items *)
    intros s vs r H. cbn [scan_once array_items object_pairs] in H.
    destruct (scan_once m s) as [[v r0] |] eqn:Hv; [| discriminate].
    apply IHs in Hv as [Hlen Hfuel].
    pose proof (skip_ws_length r0) as Hws.
    destruct (skip_ws r0) as [| c r1] eqn:Ht; [discriminate |].
    destruct (Ascii.eqb c "]") eqn:Hc.
    + injection H as <- <-. simpl in *. split; [lia |].
      intros [| n] Hn; [lia |]. cbn [scan_once array_items object_pairs].
      rewrite Hfuel; [| lia]. now rewrite Ht, Hc.
    + destruct (Ascii.eqb c ",") eqn:Hcomma; [| discriminate].
      destruct (array_items m (skip_ws r1)) as [[vs' r'] |] eqn:Ha;
        [| discriminate].
      injection H as <- <-. apply IHa in Ha as [Hlen' Hfuel'].
      pose proof (skip_ws_length r1) as Hws1. simpl in *. split; [lia |].
      intros [| n] Hn; [lia |]. cbn [scan_once array_items object_pairs].
      rewrite Hfuel; [| lia]. rewrite Ht, Hc, Hcomma.
      rewrite Hfuel'; [reflexivity | lia].
  - (* object_pairs *)
    intros s ps r H. destruct s as [| q t]; [discriminate |].
    cbn [scan_once array_items object_pairs] in H.
    destruct (Ascii.eqb q quote) eqn:Hq; [| discriminate].
    destruct (scanstring t) as [[key r1] |] eqn:Hs; [| discriminate].
    apply scanstring_shorter with (k := String.length t) in Hs as Hkey;
      [| lia].
    pose proof (skip_ws_length r1) as Hws1.
    destruct (skip_ws r1) as [| col r2] eqn:Ht1; [discriminate |].
    destruct (Ascii.eqb col ":") eqn:Hcol; [| discriminate].
    pose proof (skip_ws_length r2) as Hws2.
    destruct (scan_once m (skip_ws r2)) as [[v r3] |] eqn:Hv; [| discriminate].
    apply IHs in Hv as [Hlen Hfuel].
    pose proof (skip_ws_length r3) as Hws3.
    destruct (skip_ws r3) as [| c r4] eqn:Ht3; [discriminate |].
    destruct (Ascii.eqb c "}") eqn:Hc.
    + injection H as <- <-. simpl in *. split; [lia |].
      intros [| n] Hn; [lia |]. cbn [scan_once array_items object_pairs]. rewrite Hq, Hs, Ht1, Hcol.
      rewrite Hfuel; [| lia]. now rewrite Ht3, Hc.
    + destruct (Ascii.eqb c ",") eqn:Hcomma; [| discriminate].
      destruct (object_pairs m (skip_ws r4)) as [[ps' r'] |] eqn:Ho;
        [| discriminate].
      injection H as <- <-. apply IHo in Ho as [Hlen' Hfuel'].
      pose proof (skip_ws_length r4) as Hws4. simpl in *. split; [lia |].
      intros [| n] Hn; [lia |]. cbn [scan_once array_items object_pairs]. rewrite Hq, Hs, Ht1, Hcol.
      rewrite Hfuel; [| lia]. rewrite Ht3, Hc, Hcomma.
      rewrite Hfuel'; [reflexivity | lia].
Qed.

(** [loads] fails only on a text that no amount of fuel decodes. *)
Theorem loads_complete (s : string) (m : nat) (v : pyval) (r : string) :
  scan_once m (skip_ws s) = Some (v, r) ->
  skip_ws r = EmptyString ->
  loads s = Some v.
Proof.
  intros Hscan Hrest. unfold loads.
  destruct (scan_enough m) as (Hs & _ & _).
  apply Hs in Hscan as [_ Hfuel].
  pose proof (skip_ws_length s).
  rewrite Hfuel; [| lia]. now rewrite Hrest.
Qed.

End JsonFacts.

(** ** Facts about the aggregator *)

Section AggregatorFacts.

Variable fs : FileSystem.
Variable log_dir : string.

Lemma bind_ok {A B : Type} (r : result A) (k : A -> result B) (b : B) :
  bind r k = Ok b -> exists a, r = Ok a /\ k a = Ok b.
Proof.
  destruct r as [a | e]; simpl; intros H; [exists a; auto | discriminate].
Qed.

Lemma app_nil_inv {A : Type} (l r : list A) : l ++ r = l -> r = [].
Proof.
  intros H. apply (f_equal (@List.length A)) in H. rewrite length_app in H.
  destruct r; [reflexivity | simpl in H; lia].
Qed.

(** What one line adds does not depend on what was gathered before it. *)
Lemma read_line_app (name : string) (all_records : list LogRecord) (line : string) :
  read_line name all_records line =
  (rs <- read_line name [] line ;; Ok (all_records ++ rs)).
Proof.
  unfold read_line, try_entry.
  destruct (String.eqb (Str.strip line) ""); simpl.
  - now rewrite app_nil_r.
  - destruct (json_loads (Str.strip line)) as [entry | e]; simpl.
    + destruct (py_contains "exit_code" entry) as [[|] | e1]; simpl.
      * destruct (py_contains "timestamp" entry) as [[|] | e2]; simpl.
        -- destruct (py_getitem entry "exit_code") as [c | e3]; simpl.
           ++ destruct (py_getitem entry "timestamp") as [t | e4]; simpl.
              ** reflexivity.
              ** destruct e4; simpl; try reflexivity; now rewrite app_nil_r.
           ++ destruct e3; simpl; try reflexivity; now rewrite app_nil_r.
        -- now rewrite app_nil_r.
        -- destruct e2; simpl; try reflexivity; now rewrite app_nil_r.
      * now rewrite app_nil_r.
      * destruct e1; simpl; try reflexivity; now rewrite app_nil_r.
    + destruct e; simpl; try reflexivity; now rewrite app_nil_r.
Qed.

Lemma read_lines_app (name : string) (lines : list string) :
  forall all_records,
    read_lines name lines all_records =
    (rs <- read_lines name lines [] ;; Ok (all_records ++ rs)).
Proof.
  induction lines as [| line rest IH]; intros all_records; simpl.
  - now rewrite app_nil_r.
  - rewrite read_line_app.
    destruct (read_line name [] line) as [rs | e]; simpl; [| reflexivity].
    rewrite IH. rewrite (IH rs).
    destruct (read_lines name rest []) as [rs' | e]; simpl; [| reflexivity].
    now rewrite app_assoc.
Qed.

Lemma read_logs_app (names : list string) :
  forall all_records,
    read_logs fs log_dir names all_records =
    (rs <- read_logs fs log_dir names [] ;; Ok (all_records ++ rs)).
Proof.
  induction names as [| name rest IH]; intros all_records; simpl.
  - now rewrite app_nil_r.
  - destruct (fs (os_path_join log_dir (name ++ ".json"))) as [lines |].
    + rewrite read_lines_app.
      destruct (read_lines name lines []) as [rs | e]; simpl; [| reflexivity].
      rewrite IH. rewrite (IH rs).
      destruct (read_logs fs log_dir rest []) as [rs' | e]; simpl; [| reflexivity].
      now rewrite app_assoc.
    + apply IH.
Qed.

(** The names are read one after the other. *)
Lemma read_logs_concat (before after : list string) :
  forall all_records,
    read_logs fs log_dir (before ++ after) all_records =
    (all_records' <- read_logs fs log_dir before all_records ;;
     read_logs fs log_dir after all_records').
Proof.
  induction before as [| name rest IH]; intros all_records; simpl.
  - reflexivity.
  - destruct (fs (os_path_join log_dir (name ++ ".json"))) as [lines |].
    + destruct (read_lines name lines all_records) as [rs | e]; simpl;
        [apply IH | reflexivity].
    + apply IH.
Qed.

End AggregatorFacts.

(** ** The status of a record *)

Lemma json_loads_empty : json_loads "" = Raise JSONDecodeError.
Proof. reflexivity. Qed.

Lemma status_of_success (v : pyval) :
  status_of v = success <-> py_eq_zero v = true.
Proof.
  unfold status_of. destruct (py_eq_zero v); split; intros H;
    try reflexivity; discriminate.
Qed.

Lemma status_of_failure (v : pyval) :
  status_of v = failure <-> py_eq_zero v = false.
Proof.
  unfold status_of. destruct (py_eq_zero v); split; intros H;
    try reflexivity; discriminate.
Qed.

Lemma status_of_int (z : Z) :
  status_of (PyInt z) = if (z =? 0)%Z then success else failure.
Proof. reflexivity. Qed.

(** A line whose text decodes to a dict with both keys adds one record. *)
Lemma read_line_object (name : string) (all_records : list LogRecord)
    (line : string) (pairs : list (string * pyval)) (exit_code ts : pyval) :
  json_loads (Str.strip line) = Ok (PyDict pairs) ->
  dict_get "exit_code" pairs = Some exit_code ->
  dict_get "timestamp" pairs = Some ts ->
  read_line name all_records line =
  Ok (all_records ++ [mkRecord ts (status_of exit_code) name]).
Proof.
  intros Hjson Hcode Hts. unfold read_line.
  destruct (String.eqb (Str.strip line) "") eqn:Hempty.
  - apply String.eqb_eq in Hempty. rewrite Hempty in Hjson. discriminate.
  - unfold try_entry. rewrite Hjson. simpl. unfold dict_has.
    rewrite Hcode. simpl. rewrite Hts. simpl. reflexivity.
Qed.

(** A line adds a record only in that case. *)
Lemma read_line_inv (name : string) (all_records all_records' : list LogRecord)
    (line : string) :
  read_line name all_records line = Ok all_records' ->
  all_records' = all_records \/
  exists pairs exit_code ts,
    json_loads (Str.strip line) = Ok (PyDict pairs) /\
    dict_get "exit_code" pairs = Some exit_code /\
    dict_get "timestamp" pairs = Some ts /\
    all_records' = all_records ++ [mkRecord ts (status_of exit_code) name].
Proof.
  unfold read_line, try_entry.
  destruct (String.eqb (Str.strip line) "").
  { intros H; injection H as <-; now left. }
  destruct (json_loads (Str.strip line)) as [entry | e]; simpl.
  2: { destruct e; intros H; try discriminate. injection H as <-; now left. }
  destruct entry as [| b | z | f | s | items | pairs]; simpl;
    try discriminate.
  - (* a string *)
    destruct (Str.contains "exit_code" s); simpl.
    + destruct (Str.contains "timestamp" s); simpl; [discriminate |].
      intros H; injection H as <-; now left.
    + intros H; injection H as <-; now left.
  - (* a list *)
    destruct (existsb (fun x => py_eq_str x "exit_code") items); simpl.
    + destruct (existsb (fun x => py_eq_str x "timestamp") items); simpl;
        [discriminate |].
      intros H; injection H as <-; now left.
    + intros H; injection H as <-; now left.
  - (* a dict *)
    unfold dict_has.
    destruct (dict_get "exit_code" pairs) as [c |] eqn:Hc; simpl.
    + destruct (dict_get "timestamp" pairs) as [t |] eqn:Ht; simpl.
      * intros H; injection H as <-. right. exists pairs, c, t. auto.
      * intros H; injection H as <-; now left.
    + intros H; injection H as <-; now left.
Qed.

(** A line that decodes to [None], a boolean or a number ends the run. *)
Lemma read_line_scalar (name : string) (all_records : list LogRecord)
    (line : string) (v : pyval) :
  json_loads (Str.strip line) = Ok v ->
  match v with
  | PyNone | PyBool _ | PyInt _ | PyFloat _ => True
  | PyStr _ | PyList _ | PyDict _ => False
  end ->
  read_line name all_records line = Raise TypeError.
Proof.
  intros Hjson Hscalar. unfold read_line.
  destruct (String.eqb (Str.strip line) "") eqn:Hempty.
  - apply String.eqb_eq in Hempty. rewrite Hempty in Hjson. discriminate.
  - unfold try_entry. rewrite Hjson.
    destruct v; simpl; try reflexivity; contradiction.
Qed.

(** How the decoder and the status treat some values of [exit_code]. *)
Example exit_code_values :
  map (fun t => read_line "p" [] (text t))
      [ "{'timestamp':1,'exit_code':0}";
        "{'timestamp':1,'exit_code':0.0}";
        "{'timestamp':1,'exit_code':-0.0}";
        "{'timestamp':1,'exit_code':1e-400}";
        "{'timestamp':1,'exit_code':false}";
        "{'timestamp':1,'exit_code':1}";
        "{'timestamp':1,'exit_code':-1}";
        "{'timestamp':1,'exit_code':0.5}";
        "{'timestamp':1,'exit_code':true}";
        "{'timestamp':1,'exit_code':'0'}";
        "{'timestamp':1,'exit_code':null}";
        "{'timestamp':1,'exit_code':[]}";
        "{'timestamp':1,'exit_code':1,'exit_code':0}" ]
  = map (fun s => Ok [mkRecord (PyInt 1) s "p"])
        [ success; success; success; success; success;
          failure; failure; failure; failure; failure; failure; failure;
          success ].
Proof. vm_compute. reflexivity. Qed.

(** C1. Whenever a log line is turned into a record, the line decodes to an
    object whose [exit_code] entry alone fixes the status of the record: the
    status is [status_of] of that entry, which is [success] for the integer
    0 and [failure] for every other integer. *)
Theorem status_determined_by_exit_code :
  forall (name : string) (all_records all_records' : list LogRecord)
         (line : string),
    read_line name all_records line = Ok all_records' ->
    all_records' <> all_records ->
    exists pairs exit_code ts,
      json_loads (Str.strip line) = Ok (PyDict pairs) /\
      dict_get "exit_code" pairs = Some exit_code /\
      dict_get "timestamp" pairs = Some ts /\
      all_records' = all_records ++ [mkRecord ts (status_of exit_code) name] /\
      (exit_code = PyInt 0 -> status_of exit_code = success) /\
      (forall z, z <> 0%Z -> exit_code = PyInt z -> status_of exit_code = failure).
Proof.
  intros name all_records all_records' line Hread Hnew.
  destruct (read_line_inv _ _ _ _ Hread) as [Hsame | (pairs & c & t & H1 & H2 & H3 & H4)].
  - contradiction.
  - exists pairs, c, t. repeat split; auto.
    + intros ->. reflexivity.
    + intros z Hz ->. rewrite status_of_int.
      destruct (Z.eqb_spec z 0); [contradiction | reflexivity].
Qed.

Lemma status_determined_by_exit_code_witness :
  read_line "alpha" [] sample_line = Ok [sample_record] /\
  [sample_record] <> [] /\
  exists pairs exit_code ts,
    json_loads (Str.strip sample_line) = Ok (PyDict pairs) /\
    dict_get "exit_code" pairs = Some exit_code /\
    dict_get "timestamp" pairs = Some ts /\
    [sample_record] = [] ++ [mkRecord ts (status_of exit_code) "alpha"] /\
    (exit_code = PyInt 0 -> status_of exit_code = success) /\
    (forall z, z <> 0%Z -> exit_code = PyInt z -> status_of exit_code = failure).
Proof.
  assert (H1 : read_line "alpha" [] sample_line = Ok [sample_record])
    by (vm_compute; reflexivity).
  assert (H2 : [sample_record] <> []) by discriminate.
  split; [exact H1 | split; [exact H2 |]].
  exact (status_determined_by_exit_code "alpha" [] [sample_record] sample_line H1 H2).
Defined.

(** C10. No type is asked of the two fields: a line that decodes to an
    object holding both keys adds a record whatever their values are, and
    the status is [success] exactly when the [exit_code] entry equals 0 in
    Python's sense.  So the integer 0, a float zero of either sign and
    [False] give [success]; strings, [None], the other integers and floats,
    [True], lists and dicts give [failure]. *)
Theorem record_for_any_exit_code_type :
  forall (name : string) (all_records : list LogRecord) (line : string)
         (pairs : list (string * pyval)) (exit_code ts : pyval),
    json_loads (Str.strip line) = Ok (PyDict pairs) ->
    dict_get "exit_code" pairs = Some exit_code ->
    dict_get "timestamp" pairs = Some ts ->
    read_line name all_records line =
      Ok (all_records ++ [mkRecord ts (status_of exit_code) name]) /\
    (status_of exit_code = success <-> py_eq_zero exit_code = true) /\
    (status_of exit_code = failure <-> py_eq_zero exit_code = false) /\
    status_of (PyInt 0) = success /\
    (forall sign, status_of (PyFloat (S754_zero sign)) = success) /\
    status_of (PyBool false) = success /\
    status_of (PyBool true) = failure /\
    status_of PyNone = failure /\
    (forall s, status_of (PyStr s) = failure) /\
    (forall z, z <> 0%Z -> status_of (PyInt z) = failure) /\
    (forall sign m e, status_of (PyFloat (S754_finite sign m e)) = failure) /\
    (forall sign, status_of (PyFloat (S754_infinity sign)) = failure) /\
    status_of (PyFloat S754_nan) = failure /\
    (forall items, status_of (PyList items) = failure) /\
    (forall d, status_of (PyDict d) = failure).
Proof.
  intros name all_records line pairs exit_code ts Hjson Hcode Hts.
  split; [now apply read_line_object with (pairs := pairs) |].
  split; [apply status_of_success |].
  split; [apply status_of_failure |].
  split; [reflexivity |].
  split; [intros []; reflexivity |].
  split; [reflexivity |].
  split; [reflexivity |].
  split; [reflexivity |].
  split; [reflexivity |].
  split.
  { intros z Hz. rewrite status_of_int.
    destruct (Z.eqb_spec z 0); [contradiction | reflexivity]. }
  split; [intros [] m e; reflexivity |].
  split; [intros []; reflexivity |].
  split; [reflexivity |].
  split; reflexivity.
Qed.

Lemma record_for_any_exit_code_type_witness :
  let line := text "{'exit_code': 0.0, 'timestamp': [1, 2]}" in
  let pairs := [("exit_code", PyFloat (S754_zero false));
                ("timestamp", PyList [PyInt 1; PyInt 2])] in
  json_loads (Str.strip line) = Ok (PyDict pairs) /\
  dict_get "exit_code" pairs = Some (PyFloat (S754_zero false)) /\
  dict_get "timestamp" pairs = Some (PyList [PyInt 1; PyInt 2]) /\
  read_line "alpha" [] line =
    Ok [mkRecord (PyList [PyInt 1; PyInt 2]) success "alpha"].
Proof.
  intros line pairs.
  assert (H1 : json_loads (Str.strip line) = Ok (PyDict pairs))
    by (vm_compute; reflexivity).
  assert (H2 : dict_get "exit_code" pairs = Some (PyFloat (S754_zero false)))
    by reflexivity.
  assert (H3 : dict_get "timestamp" pairs = Some (PyList [PyInt 1; PyInt 2]))
    by reflexivity.
  split; [exact H1 | split; [exact H2 | split; [exact H3 |]]].
  exact (proj1 (record_for_any_exit_code_type "alpha" [] line pairs _ _ H1 H2 H3)).
Defined.

(** ** Lines and files that add nothing *)

Lemma read_line_passed_over (name : string) (all_records : list LogRecord)
    (line : string) :
  passed_over line -> read_line name all_records line = Ok all_records.
Proof.
  unfold read_line, try_entry.
  intros [Hblank | [Hbad | (pairs & Hjson & Hmiss)]].
  - rewrite Hblank. reflexivity.
  - destruct (String.eqb (Str.strip line) ""); [reflexivity |].
    rewrite Hbad. reflexivity.
  - destruct (String.eqb (Str.strip line) ""); [reflexivity |].
    rewrite Hjson. simpl. unfold dict_has.
    destruct Hmiss as [Hm | Hm].
    + rewrite Hm. reflexivity.
    + rewrite Hm. destruct (dict_get "exit_code" pairs); reflexivity.
Qed.

Lemma read_lines_passed_over (name : string) (lines : list string) :
  forall all_records,
    Forall passed_over lines -> read_lines name lines all_records = Ok all_records.
Proof.
  induction lines as [| line rest IH]; intros all_records Hall; simpl.
  - reflexivity.
  - inversion Hall as [| ? ? Hline Hrest]; subst.
    rewrite (read_line_passed_over _ _ _ Hline). simpl. now apply IH.
Qed.

Lemma read_logs_nothing (fs : FileSystem) (log_dir : string)
    (names : list string) :
  forall all_records,
    (forall name lines,
        In name names ->
        fs (os_path_join log_dir (name ++ ".json")) = Some lines ->
        Forall passed_over lines) ->
    read_logs fs log_dir names all_records = Ok all_records.
Proof.
  induction names as [| name rest IH]; intros all_records Hall; simpl.
  - reflexivity.
  - destruct (fs (os_path_join log_dir (name ++ ".json"))) as [lines |] eqn:Hfile.
    + rewrite (read_lines_passed_over name lines).
      * simpl. apply IH. intros n ls Hin. apply Hall. now right.
      * apply (Hall name lines); [now left | exact Hfile].
    + apply IH. intros n ls Hin. apply Hall. now right.
Qed.

Lemma os_path_join_relative (log_dir name : string) :
  prefix "/" name = false ->
  log_dir <> "" ->
  Str.endswith log_dir "/" = false ->
  os_path_join log_dir (name ++ ".json") = (log_dir ++ "/" ++ name ++ ".json")%string.
Proof.
  intros Hrel Hdir Hslash. unfold os_path_join.
  assert (Hp : prefix "/" (name ++ ".json") = false).
  { destruct name as [| c name']; [reflexivity |].
    change (prefix "/" (String c name' ++ ".json"))
      with (if ascii_dec "/" c then prefix "" (name' ++ ".json") else false).
    change (prefix "/" (String c name'))
      with (if ascii_dec "/" c then prefix "" name' else false) in Hrel.
    destruct (ascii_dec "/" c); [| reflexivity].
    destruct name'; discriminate. }
  rewrite Hp, Hslash.
  destruct (String.eqb_spec log_dir ""); [contradiction | reflexivity].
Qed.

(** C7. A requested name whose log file does not exist adds no record and
    raises nothing: alone it gives the empty result, and among other names
    the aggregation is that of the other names.  The file is the one
    [os.path.join] names, which for a relative name in a directory is
    [<log_dir>/<name>.json]. *)
Theorem missing_log_contributes_nothing :
  forall (fs : FileSystem) (log_dir : string) (before after : list string)
         (name : string),
    fs (os_path_join log_dir (name ++ ".json")) = None ->
    parse_log_files fs [name] log_dir = Ok [] /\
    parse_log_files fs (before ++ name :: after) log_dir =
      parse_log_files fs (before ++ after) log_dir /\
    (prefix "/" name = false -> log_dir <> "" ->
     Str.endswith log_dir "/" = false ->
     fs (log_dir ++ "/" ++ name ++ ".json")%string = None).
Proof.
  intros fs log_dir before after name Hmissing. unfold parse_log_files.
  split; [simpl; now rewrite Hmissing |].
  split.
  - rewrite !read_logs_concat.
    destruct (read_logs fs log_dir before []) as [rs | e]; simpl; [| reflexivity].
    now rewrite Hmissing.
  - intros H1 H2 H3. now rewrite <- os_path_join_relative.
Qed.

Lemma missing_log_contributes_nothing_witness :
  let fs := one_file "/logs/alpha.json" alpha_log in
  fs (os_path_join "/logs" ("beta" ++ ".json")) = None /\
  parse_log_files fs ["beta"] "/logs" = Ok [] /\
  parse_log_files fs (["alpha"] ++ "beta" :: ["alpha"]) "/logs" =
    Ok [sample_record; sample_record].
Proof.
  intros fs.
  assert (H : fs (os_path_join "/logs" ("beta" ++ ".json")) = None)
    by reflexivity.
  destruct (missing_log_contributes_nothing fs "/logs" ["alpha"] ["alpha"] "beta" H)
    as (H1 & H2 & _).
  split; [exact H |]. split; [exact H1 |].
  rewrite H2. vm_compute. reflexivity.
Defined.

(** The example of the specification: the three lines of [alpha_log] give
    one record. *)
Example alpha_log_one_record :
  parse_log_files (one_file "/logs/alpha.json" alpha_log) ["alpha"] "/logs"
  = Ok [sample_record].
Proof. vm_compute. reflexivity. Qed.

(** C2 (the code departs from the claim). A line that is valid JSON but not
    an object is not passed over: [null] makes the membership test raise
    [TypeError], which the [except] clause does not catch, and the run of
    [parse_log_files] ends without any record, the one of the complete line
    before it included. *)
Theorem non_object_line_raises :
  parse_log_files (one_file "/logs/alpha.json" alpha_log_then_null)
                  ["alpha"] "/logs"
  = Raise TypeError.
Proof. vm_compute. reflexivity. Qed.

(** ** The selection *)

(** C5. The list the selection starts from is the command-line names when
    there is at least one, whatever the config holds, and the config list
    when there is none.  With the arguments [svc1 svc2] and the default
    [svc3] it is [svc1, svc2]. *)
Theorem cli_names_replace_config_defaults :
  (forall (argv : list string) (config_processes : pyval),
      fst (initial_selection argv config_processes) =
        match tl argv with
        | [] => config_processes
        | name :: names => PyList (map PyStr (name :: names))
        end) /\
  (forall (argv : list string) (c1 c2 : pyval),
      tl argv <> [] ->
      fst (initial_selection argv c1) = fst (initial_selection argv c2)) /\
  fst (initial_selection ["process_dashboard.py"; "svc1"; "svc2"]
                         (PyList [PyStr "svc3"]))
    = PyList [PyStr "svc1"; PyStr "svc2"].
Proof.
  assert (H : forall argv config_processes,
             fst (initial_selection argv config_processes) =
             match tl argv with
             | [] => config_processes
             | name :: names => PyList (map PyStr (name :: names))
             end).
  { intros [| script_name [| name names]] config_processes; reflexivity. }
  split; [exact H |]. split; [| reflexivity].
  intros argv c1 c2 Hcli. rewrite !H.
  destruct (tl argv); [contradiction | reflexivity].
Qed.

(** The two lists split the requested items, each keeping their order. *)
Lemma selection_splits_requested (items : list pyval) (available : list string) :
  sanitized_selection items available =
    filter (fun p => py_in p available) items /\
  ignored_processes items available =
    filter (fun p => negb (py_in p available)) items /\
  Permutation (sanitized_selection items available
               ++ ignored_processes items available) items /\
  (forall p, In p (sanitized_selection items available) ->
             ~ In p (ignored_processes items available)).
Proof.
  unfold sanitized_selection, ignored_processes.
  split; [reflexivity |]. split; [reflexivity |]. split.
  - induction items as [| p rest IH]; simpl; [constructor |].
    destruct (py_in p available); simpl.
    + now constructor.
    + apply Permutation_sym, Permutation_cons_app, Permutation_sym, IH.
  - intros p Hs Hi. apply filter_In in Hs. apply filter_In in Hi.
    destruct Hs as [_ Hs]. destruct Hi as [_ Hi]. rewrite Hs in Hi.
    discriminate.
Qed.

(** C6 (the code departs from the claim). The names with a log are computed
    by removing every occurrence of [.json] from the file names, not only
    the extension.  With the one file [a.json.json] the requested name [a],
    which has no log file [a.json], is selected and not ignored; with the
    one file [x.jsonb.json] the requested name [x.jsonb], whose log file
    exists, is ignored and not selected. *)
Theorem extension_removed_everywhere :
  (Str.mem "a.json" ["a.json.json"] = false /\
   available_logs ["a.json.json"] = ["a"] /\
   sanitized_selection [PyStr "a"] (available_logs ["a.json.json"])
     = [PyStr "a"] /\
   ignored_processes [PyStr "a"] (available_logs ["a.json.json"]) = []) /\
  (Str.mem "x.jsonb.json" ["x.jsonb.json"] = true /\
   available_logs ["x.jsonb.json"] = ["xb"] /\
   sanitized_selection [PyStr "x.jsonb"] (available_logs ["x.jsonb.json"])
     = [] /\
   ignored_processes [PyStr "x.jsonb"] (available_logs ["x.jsonb.json"])
     = [PyStr "x.jsonb"]).
Proof. vm_compute. repeat split. Qed.

(** ** The config loader and the empty states of the script *)

Lemma config_failure_raises (toml_load : result (list (string * pyval)))
    (e : exn) :
  config_failure toml_load e -> read_config toml_load = Raise e.
Proof.
  intros [e' H | pairs H Hout | pairs output H Hout Hlogs];
    rewrite H; unfold read_config; simpl.
  - reflexivity.
  - now rewrite Hout.
  - rewrite Hout. simpl. now rewrite Hlogs.
Qed.

(** Whatever fails inside the [try] block, the loader returns. *)
Lemma load_app_config_total (toml_load : result (list (string * pyval))) :
  exists shown r, load_app_config toml_load = (shown, Ok r).
Proof.
  unfold load_app_config.
  destruct (read_config toml_load) as [r | e]; eauto.
Qed.

(** The list of names is optional: without it the loader returns the log
    directory and the empty list, and shows nothing. *)
Lemma load_app_config_without_names (pairs output : list (string * pyval))
    (log_dir : pyval) :
  dict_get "output_path" pairs = Some (PyDict output) ->
  dict_get "logs" output = Some log_dir ->
  dict_get "process_dashboard" pairs = None ->
  load_app_config (Ok pairs) = ([], Ok (log_dir, PyList [])).
Proof.
  intros Hout Hlogs Hnone. unfold load_app_config, read_config. simpl.
  rewrite Hout. simpl. rewrite Hlogs. simpl. now rewrite Hnone.
Qed.

Section ScriptFacts.

Variable to_datetime : list pyval -> result (list datetime).
Variable sort_values : list Row -> list Row.
Variable sort_values_desc : list Row -> list Row.

(** C8. When the config file cannot be read or parsed, or lacks
    [output_path] or [output_path.logs], [load_app_config] shows the error
    and returns [(None, [])] instead of raising; the script then goes on
    without a log directory: it warns that the dashboard cannot function,
    selects nothing, asks for a selection, and ends without an exception. *)
Theorem config_failure_degrades :
  forall (w : World) (e : exn),
    config_failure (config_file w) e ->
    load_app_config (config_file w) = ([st_error e], Ok (PyNone, PyList [])) /\
    script to_datetime sort_values sort_values_desc w =
      ([ st_set_page_config; st_title; st_error e;
         snd (initial_selection (argv w) (PyList []));
         st_warning
           "Could not find log directory from config. The dashboard cannot function.";
         st_markdown;
         st_info
           "Please select at least one process from the sidebar to begin monitoring." ],
       Ok tt).
Proof.
  intros w e Hfail.
  assert (Hload : load_app_config (config_file w)
                  = ([st_error e], Ok (PyNone, PyList []))).
  { unfold load_app_config. now rewrite (config_failure_raises _ _ Hfail). }
  split; [exact Hload |].
  unfold script. rewrite Hload. simpl.
  destruct (initial_selection (argv w) (PyList [])) as [initial notice].
  reflexivity.
Qed.

(** C9. When the aggregation gives no record, be it that nothing is
    selected, that no selected log exists, or that every line of the logs
    is passed over, the result is the empty frame and the main area shows
    one informative notice and raises nothing. *)
Theorem no_records_neutral_state :
  forall (fs : FileSystem) (selected_processes : list string)
         (log_dir : string),
    (parse_log_files fs selected_processes log_dir = Ok []
     \/ forall name lines,
          In name selected_processes ->
          fs (os_path_join log_dir (name ++ ".json")) = Some lines ->
          Forall passed_over lines) ->
    parse_log_files fs selected_processes log_dir = Ok [] /\
    main_dashboard to_datetime sort_values sort_values_desc
                   fs selected_processes (PyStr log_dir) =
      ([st_info (waiting_message selected_processes)], Ok tt).
Proof.
  intros fs selected_processes log_dir H.
  assert (Hempty : parse_log_files fs selected_processes log_dir = Ok []).
  { destruct H as [H | H]; [exact H |].
    unfold parse_log_files. now apply read_logs_nothing. }
  split; [exact Hempty |].
  unfold main_dashboard.
  destruct selected_processes as [| name rest]; [reflexivity |].
  rewrite Hempty. reflexivity.
Qed.

End ScriptFacts.

Lemma config_failure_degrades_witness :
  config_failure (config_file world_without_config)
                 (OSError "config.toml: no such file") /\
  load_app_config (config_file world_without_config)
    = ([st_error (OSError "config.toml: no such file")],
       Ok (PyNone, PyList [])) /\
  script Sample.to_datetime Sample.sort_values Sample.sort_values_desc
         world_without_config
    = ([ st_set_page_config; st_title;
         st_error (OSError "config.toml: no such file");
         st_sidebar_info "Monitoring processes specified via command line.";
         st_warning
           "Could not find log directory from config. The dashboard cannot function.";
         st_markdown;
         st_info
           "Please select at least one process from the sidebar to begin monitoring." ],
       Ok tt).
Proof.
  assert (H : config_failure (config_file world_without_config)
                             (OSError "config.toml: no such file"))
    by (apply config_unreadable; reflexivity).
  split; [exact H |].
  exact (config_failure_degrades Sample.to_datetime Sample.sort_values
           Sample.sort_values_desc world_without_config _ H).
Defined.

Lemma no_records_neutral_state_witness :
  parse_log_files (one_file "/logs/alpha.json" barren_log)
                  ["alpha"; "beta"] "/logs" = Ok [] /\
  main_dashboard Sample.to_datetime Sample.sort_values Sample.sort_values_desc
                 (one_file "/logs/alpha.json" barren_log)
                 ["alpha"; "beta"] (PyStr "/logs")
    = ([st_info "Waiting for log data for: alpha, beta..."], Ok tt).
Proof.
  assert (H : parse_log_files (one_file "/logs/alpha.json" barren_log)
                              ["alpha"; "beta"] "/logs" = Ok [])
    by (vm_compute; reflexivity).
  exact (no_records_neutral_state Sample.to_datetime Sample.sort_values
           Sample.sort_values_desc _ _ _ (or_introl H)).
Defined.

(** ** The cumulative columns *)

Lemma nth_error_combine {A B : Type} (l1 : list A) :
  forall (l2 : list B) (i : nat) (a : A) (b : B),
    nth_error (combine l1 l2) i = Some (a, b) <->
    nth_error l1 i = Some a /\ nth_error l2 i = Some b.
Proof.
  induction l1 as [| x l1 IH]; intros [| y l2] [| i] a b; simpl;
    try (split; [discriminate | intros [H1 H2]; discriminate]).
  - split.
    + intros H; injection H as -> ->; auto.
    + intros [H1 H2]; injection H1 as ->; injection H2 as ->; reflexivity.
  - apply IH.
Qed.

Lemma map_fst_combine {A B : Type} (l1 : list A) :
  forall l2 : list B,
    (List.length l1 <= List.length l2)%nat -> map fst (combine l1 l2) = l1.
Proof.
  induction l1 as [| x l1 IH]; intros [| y l2] Hlen; simpl in *;
    try reflexivity; try lia.
  f_equal. apply IH. lia.
Qed.

Lemma cumsum_from_length (flags : list bool) :
  forall acc, List.length (cumsum_from acc flags) = List.length flags.
Proof.
  induction flags as [| b rest IH]; intros acc; simpl; [| rewrite IH];
    reflexivity.
Qed.

Lemma status_flags_exclusive (s : Status) :
  (as_int (Status_eqb s success) + as_int (Status_eqb s failure) = 1)%Z.
Proof. destruct s; reflexivity. Qed.

(** From running totals [a] and [b], the two columns add up, at index [i],
    to [a + b] plus the number of rows up to and including that index. *)
Lemma cumsum_pair (df : list Row) :
  forall (a b : Z) (i : nat) (s f : Z),
    nth_error (cumsum_from a (status_is success df)) i = Some s ->
    nth_error (cumsum_from b (status_is failure df)) i = Some f ->
    (s + f = a + b + Z.of_nat i + 1)%Z.
Proof.
  induction df as [| r rest IH]; intros a b [| i] s f; simpl;
    try discriminate.
  - intros Hs Hf. injection Hs as <-. injection Hf as <-.
    pose proof (status_flags_exclusive (row_status r)). lia.
  - intros Hs Hf. specialize (IH _ _ _ _ _ Hs Hf).
    pose proof (status_flags_exclusive (row_status r)). lia.
Qed.

Lemma cumsum_first (flags : list bool) (acc x : Z) :
  nth_error (cumsum_from acc flags) 0 = Some x ->
  exists b, nth_error flags 0 = Some b /\ x = (acc + as_int b)%Z.
Proof.
  destruct flags as [| b rest]; simpl; [discriminate |].
  intros H; injection H as <-. now exists b.
Qed.

Lemma cumsum_next (flags : list bool) :
  forall (acc : Z) (i : nat) (p x : Z),
    nth_error (cumsum_from acc flags) i = Some p ->
    nth_error (cumsum_from acc flags) (S i) = Some x ->
    exists b, nth_error flags (S i) = Some b /\ x = (p + as_int b)%Z.
Proof.
  induction flags as [| b0 rest IH]; intros acc [| i] p x; simpl;
    try discriminate.
  - intros Hp Hx. injection Hp as <-. now apply cumsum_first.
  - intros Hp Hx. exact (IH _ _ _ _ Hp Hx).
Qed.

Lemma with_counters_nth (df : list Row) (i : nat) (row : SeriesRow) :
  nth_error (with_counters df) i = Some row ->
  nth_error df i = Some (series_row row) /\
  nth_error (cumsum (status_is success df)) i = Some (success_count row) /\
  nth_error (cumsum (status_is failure df)) i = Some (failure_count row).
Proof.
  unfold with_counters. rewrite nth_error_map.
  destruct (nth_error _ i) as [[r [s f]] |] eqn:E; simpl; [| discriminate].
  intros H; injection H as <-. simpl.
  apply nth_error_combine in E as [E1 E2].
  apply nth_error_combine in E2 as [E2 E3]. auto.
Qed.

Lemma with_counters_rows (df : list Row) :
  map series_row (with_counters df) = df.
Proof.
  unfold with_counters. rewrite map_map. simpl.
  change (fun x : Row * (Z * Z) => fst x) with (@fst Row (Z * Z)).
  apply map_fst_combine.
  rewrite length_combine. unfold cumsum, status_is.
  rewrite !cumsum_from_length, !length_map. lia.
Qed.

Lemma with_counters_length (df : list Row) :
  List.length (with_counters df) = List.length df.
Proof.
  rewrite <- (with_counters_rows df) at 2. now rewrite length_map.
Qed.

Lemma status_is_nth (s : Status) (df : list Row) (i : nat) (r : Row) (b : bool) :
  nth_error df i = Some r ->
  nth_error (status_is s df) i = Some b ->
  b = Status_eqb (row_status r) s.
Proof.
  unfold status_is. rewrite nth_error_map. intros ->. simpl.
  intros H; now injection H.
Qed.

(** The counters of a frame: they add up to the position, start from zero
    and step by one with the status of each row. *)
Lemma with_counters_spec (df : list Row) :
  (forall i row,
      nth_error (with_counters df) i = Some row ->
      (success_count row + failure_count row = Z.of_nat i + 1)%Z) /\
  (forall row,
      nth_error (with_counters df) 0 = Some row ->
      success_count row
        = as_int (Status_eqb (row_status (series_row row)) success) /\
      failure_count row
        = as_int (Status_eqb (row_status (series_row row)) failure)) /\
  (forall i prev row,
      nth_error (with_counters df) i = Some prev ->
      nth_error (with_counters df) (S i) = Some row ->
      success_count row
        = (success_count prev
           + as_int (Status_eqb (row_status (series_row row)) success))%Z /\
      failure_count row
        = (failure_count prev
           + as_int (Status_eqb (row_status (series_row row)) failure))%Z).
Proof.
  split; [| split].
  - intros i row H. apply with_counters_nth in H as (_ & Hs & Hf).
    pose proof (cumsum_pair df 0 0 i _ _ Hs Hf). lia.
  - intros row H. apply with_counters_nth in H as (Hr & Hs & Hf).
    apply cumsum_first in Hs as (bs & Hbs & ->).
    apply cumsum_first in Hf as (bf & Hbf & ->).
    rewrite (status_is_nth _ _ _ _ _ Hr Hbs), (status_is_nth _ _ _ _ _ Hr Hbf).
    split; reflexivity.
  - intros i prev row Hprev Hrow.
    apply with_counters_nth in Hprev as (_ & Hps & Hpf).
    apply with_counters_nth in Hrow as (Hr & Hs & Hf).
    destruct (cumsum_next _ _ _ _ _ Hps Hs) as (bs & Hbs & ->).
    destruct (cumsum_next _ _ _ _ _ Hpf Hf) as (bf & Hbf & ->).
    rewrite (status_is_nth _ _ _ _ _ Hr Hbs), (status_is_nth _ _ _ _ _ Hr Hbf).
    split; reflexivity.
Qed.

(** ** The sample sorts meet the contract *)

Lemma dt_leb_total (a b : datetime) : dt_leb a b = false -> dt_leb b a = true.
Proof.
  destruct a as [x |], b as [y |]; simpl; try discriminate; try reflexivity.
  intros H. apply Z.leb_gt in H. apply Z.leb_le. lia.
Qed.

Lemma row_le_trans (a b c : Row) : row_le a b -> row_le b c -> row_le a c.
Proof.
  unfold row_le.
  destruct (row_timestamp a) as [x |], (row_timestamp b) as [y |],
    (row_timestamp c) as [z |]; simpl; try discriminate; try reflexivity.
  rewrite !Z.leb_le. lia.
Qed.

Section InsertionFacts.

Variable before : Row -> Row -> bool.
Hypothesis before_le : forall x y, before x y = true -> row_le x y.
Hypothesis not_before_ge : forall x y, before x y = false -> row_le y x.

Lemma insert_permutes (x : Row) (l : list Row) :
  Permutation (Sample.insert before x l) (x :: l).
Proof.
  induction l as [| y rest IH]; simpl; [reflexivity |].
  destruct (before x y); [reflexivity |].
  rewrite IH. apply perm_swap.
Qed.

Lemma insertion_sort_permutes (l : list Row) :
  Permutation (Sample.insertion_sort before l) l.
Proof.
  induction l as [| x rest IH]; simpl; [reflexivity |].
  rewrite insert_permutes. now constructor.
Qed.

Lemma insert_orders (x : Row) (l : list Row) :
  StronglySorted row_le l -> StronglySorted row_le (Sample.insert before x l).
Proof.
  induction l as [| y rest IH]; intros Hsorted; simpl.
  - repeat constructor.
  - inversion Hsorted as [| ? ? Hrest Hy]; subst.
    destruct (before x y) eqn:Hxy.
    + constructor; [exact Hsorted |].
      constructor; [now apply before_le |].
      eapply Forall_impl; [| exact Hy].
      intros z Hz. eapply row_le_trans; [apply before_le, Hxy | exact Hz].
    + constructor; [now apply IH |].
      apply (Permutation_Forall (Permutation_sym (insert_permutes x rest))).
      constructor; [now apply not_before_ge | exact Hy].
Qed.

Lemma insertion_sort_orders (l : list Row) :
  StronglySorted row_le (Sample.insertion_sort before l).
Proof.
  induction l as [| x rest IH]; simpl; [constructor | now apply insert_orders].
Qed.

Lemma insertion_sort_contract : sort_contract (Sample.insertion_sort before).
Proof.
  constructor; [apply insertion_sort_permutes | apply insertion_sort_orders].
Qed.

End InsertionFacts.

Lemma sample_sort_contract : sort_contract Sample.sort_values.
Proof.
  apply insertion_sort_contract.
  - intros x y H. exact H.
  - intros x y H. now apply dt_leb_total.
Qed.

Lemma sample_to_datetime_length (column : list pyval) :
  forall ts, Sample.to_datetime column = Ok ts ->
             List.length ts = List.length column.
Proof.
  induction column as [| v rest IH]; intros ts; simpl.
  - intros H; injection H as <-; reflexivity.
  - destruct v; try discriminate;
      destruct (Sample.to_datetime rest) as [ts' |]; simpl; try discriminate;
      intros H; injection H as <-; simpl; now rewrite (IH ts').
Qed.

(** ** The series *)

Section SeriesFacts.

Variable to_datetime : list pyval -> result (list datetime).
Variable sort_values : list Row -> list Row.

Hypothesis to_datetime_keeps_length :
  forall column ts, to_datetime column = Ok ts ->
                    List.length ts = List.length column.
Hypothesis sort_values_contract : sort_contract sort_values.

Lemma frame_length (records : list LogRecord) (column : list datetime) :
  to_datetime (map timestamp records) = Ok column ->
  List.length (frame records column) = List.length records.
Proof.
  intros H. apply to_datetime_keeps_length in H. rewrite length_map in H.
  unfold frame. rewrite length_map, length_combine. lia.
Qed.

Lemma build_series_ok (records : list LogRecord) (column : list datetime) :
  to_datetime (map timestamp records) = Ok column ->
  build_series to_datetime sort_values records
  = Ok (with_counters (sort_values (frame records column))).
Proof. intros H. unfold build_series. now rewrite H. Qed.

(** C4. For every list of records whose timestamps convert, the series is
    built, has one row per record, and at every index [i] (from 0) the two
    counters add up to [i + 1], the number of rows up to that one; the
    counters of the first row are those of its status alone, that is, the
    count starts at zero, and each later row adds one to the counter of its
    status and nothing to the other. *)
Theorem counters_sum_to_position :
  forall (records : list LogRecord) (column : list datetime),
    to_datetime (map timestamp records) = Ok column ->
    exists series,
      build_series to_datetime sort_values records = Ok series /\
      List.length series = List.length records /\
      (forall i row,
          nth_error series i = Some row ->
          (success_count row + failure_count row = Z.of_nat i + 1)%Z) /\
      (forall row,
          nth_error series 0 = Some row ->
          success_count row
            = as_int (Status_eqb (row_status (series_row row)) success) /\
          failure_count row
            = as_int (Status_eqb (row_status (series_row row)) failure)) /\
      (forall i prev row,
          nth_error series i = Some prev ->
          nth_error series (S i) = Some row ->
          success_count row
            = (success_count prev
               + as_int (Status_eqb (row_status (series_row row)) success))%Z /\
          failure_count row
            = (failure_count prev
               + as_int (Status_eqb (row_status (series_row row)) failure))%Z).
Proof.
  intros records column Hcolumn.
  exists (with_counters (sort_values (frame records column))).
  split; [now apply build_series_ok |].
  split.
  - rewrite with_counters_length.
    rewrite (Permutation_length (sort_permutes _ sort_values_contract _)).
    now apply frame_length.
  - apply with_counters_spec.
Qed.

End SeriesFacts.

Lemma counters_sum_to_position_witness :
  Sample.to_datetime (map timestamp three_records)
    = Ok [Some 30%Z; Some 10%Z; Some 20%Z] /\
  exists series,
    build_series Sample.to_datetime Sample.sort_values three_records
      = Ok series /\
    List.length series = 3%nat /\
    (forall i row,
        nth_error series i = Some row ->
        (success_count row + failure_count row = Z.of_nat i + 1)%Z).
Proof.
  assert (H : Sample.to_datetime (map timestamp three_records)
              = Ok [Some 30%Z; Some 10%Z; Some 20%Z]) by reflexivity.
  split; [exact H |].
  destruct (counters_sum_to_position Sample.to_datetime Sample.sort_values
              sample_to_datetime_length sample_sort_contract three_records _ H)
    as (series & H1 & H2 & H3 & _).
  exists series. auto.
Defined.

(** ** More on the aggregator *)

Lemma record_of_some (name line : string) (r : LogRecord) :
  record_of name line = Some r ->
  exists pairs exit_code ts,
    json_loads (Str.strip line) = Ok (PyDict pairs) /\
    dict_get "exit_code" pairs = Some exit_code /\
    dict_get "timestamp" pairs = Some ts /\
    r = mkRecord ts (status_of exit_code) name.
Proof.
  unfold record_of.
  destruct (json_loads (Str.strip line)) as [v | e]; [| discriminate].
  destruct v as [| b | z | f | s | items | pairs]; try discriminate.
  destruct (dict_get "exit_code" pairs) as [c |] eqn:Hc; [| discriminate].
  destruct (dict_get "timestamp" pairs) as [t |] eqn:Ht; [| discriminate].
  intros H; injection H as <-. exists pairs, c, t. auto.
Qed.

Lemma record_of_process (name line : string) (r : LogRecord) :
  record_of name line = Some r -> process r = name.
Proof.
  intros H. apply record_of_some in H as (pairs & c & t & _ & _ & _ & ->).
  reflexivity.
Qed.

(** A line that raises nothing adds the record it stands for, if any. *)
Lemma read_line_record (name : string) (all_records all_records' : list LogRecord)
    (line : string) :
  read_line name all_records line = Ok all_records' ->
  all_records' = all_records ++ match record_of name line with
                                | Some r => [r]
                                | None => []
                                end.
Proof.
  intros Hread.
  destruct (record_of name line) as [r |] eqn:Hrec.
  - apply record_of_some in Hrec as (pairs & c & t & Hj & Hc & Ht & ->).
    rewrite (read_line_object name all_records line pairs c t Hj Hc Ht) in Hread.
    now injection Hread.
  - apply read_line_inv in Hread as [-> | (pairs & c & t & Hj & Hc & Ht & _)].
    + now rewrite app_nil_r.
    + unfold record_of in Hrec. rewrite Hj, Hc, Ht in Hrec. discriminate.
Qed.

Lemma read_lines_records (name : string) (lines : list string) :
  forall all_records all_records',
    read_lines name lines all_records = Ok all_records' ->
    all_records' = all_records ++ records_of_lines name lines.
Proof.
  induction lines as [| line rest IH]; intros all_records all_records'; simpl.
  - intros H; injection H as <-. now rewrite app_nil_r.
  - intros H. apply bind_ok in H as (mid & Hline & Hrest).
    apply read_line_record in Hline. apply IH in Hrest. subst.
    destruct (record_of name line); simpl; rewrite <- app_assoc; reflexivity.
Qed.

Lemma read_logs_records (fs : FileSystem) (log_dir : string)
    (names : list string) :
  forall all_records all_records',
    read_logs fs log_dir names all_records = Ok all_records' ->
    all_records' = all_records ++ flat_map (records_of_file fs log_dir) names.
Proof.
  induction names as [| name rest IH]; intros all_records all_records'; simpl.
  - intros H; injection H as <-. now rewrite app_nil_r.
  - unfold records_of_file at 1.
    destruct (fs (os_path_join log_dir (name ++ ".json"))) as [lines |].
    + intros H. apply bind_ok in H as (mid & Hfile & Hrest).
      apply read_lines_records in Hfile. apply IH in Hrest. subst.
      now rewrite <- app_assoc.
    + intros H. apply IH in H. exact H.
Qed.

Lemma records_of_lines_in (name : string) (lines : list string) (r : LogRecord) :
  In r (records_of_lines name lines) ->
  exists line, In line lines /\ record_of name line = Some r.
Proof.
  induction lines as [| line rest IH]; simpl; [contradiction |].
  destruct (record_of name line) as [r0 |] eqn:Hrec.
  - intros [<- | Hin].
    + exists line. auto.
    + destruct (IH Hin) as (l & Hl & Hr). exists l. auto.
  - intros Hin. destruct (IH Hin) as (l & Hl & Hr). exists l. auto.
Qed.

(** X1. Reading the names of two lists one after the other is reading the
    first list, then the second: the records of the first come first, then
    those of the second, and the first exception met is the outcome. *)
Theorem parse_log_files_appends :
  forall (fs : FileSystem) (log_dir : string) (first second : list string),
    parse_log_files fs (first ++ second) log_dir =
    (records1 <- parse_log_files fs first log_dir ;;
     records2 <- parse_log_files fs second log_dir ;;
     Ok (records1 ++ records2)).
Proof.
  intros fs log_dir first second. unfold parse_log_files.
  rewrite read_logs_concat.
  destruct (read_logs fs log_dir first []) as [rs | e]; simpl; [| reflexivity].
  apply read_logs_app.
Qed.

(** X2. When the aggregation returns, its result is, name after name in the
    order requested and line after line in file order, the records of the
    lines that decode to an object with both keys, and nothing else. *)
Theorem parse_log_files_is_comprehension :
  forall (fs : FileSystem) (log_dir : string) (process_names : list string)
         (records : list LogRecord),
    parse_log_files fs process_names log_dir = Ok records ->
    records = flat_map (records_of_file fs log_dir) process_names.
Proof.
  intros fs log_dir process_names records H.
  apply read_logs_records in H. exact H.
Qed.

Lemma parse_log_files_is_comprehension_witness :
  parse_log_files three_logs ["beta"; "delta"; "alpha"] "/logs"
    = Ok [ mkRecord (PyInt 10) failure "beta";
           mkRecord (PyInt 20) success "beta"; sample_record ] /\
  [ mkRecord (PyInt 10) failure "beta";
    mkRecord (PyInt 20) success "beta"; sample_record ]
    = flat_map (records_of_file three_logs "/logs") ["beta"; "delta"; "alpha"].
Proof.
  assert (H : parse_log_files three_logs ["beta"; "delta"; "alpha"] "/logs"
              = Ok [ mkRecord (PyInt 10) failure "beta";
                     mkRecord (PyInt 20) success "beta"; sample_record ])
    by (vm_compute; reflexivity).
  split; [exact H |].
  exact (parse_log_files_is_comprehension three_logs "/logs" _ _ H).
Defined.

(** X3. Every record of the result carries the name of a requested process
    and comes from a line of the log file of that process. *)
Theorem records_come_from_requested_logs :
  forall (fs : FileSystem) (log_dir : string) (process_names : list string)
         (records : list LogRecord) (r : LogRecord),
    parse_log_files fs process_names log_dir = Ok records ->
    In r records ->
    In (process r) process_names /\
    exists lines line,
      fs (os_path_join log_dir (process r ++ ".json")) = Some lines /\
      In line lines /\
      record_of (process r) line = Some r.
Proof.
  intros fs log_dir process_names records r Hparse Hin.
  apply read_logs_records in Hparse. simpl in Hparse. subst records.
  apply in_flat_map in Hin as (name & Hname & Hfile).
  unfold records_of_file in Hfile.
  destruct (fs (os_path_join log_dir (name ++ ".json"))) as [lines |] eqn:Hfs;
    [| contradiction].
  apply records_of_lines_in in Hfile as (line & Hline & Hrec).
  pose proof (record_of_process _ _ _ Hrec) as Hp. rewrite Hp.
  split; [exact Hname |]. exists lines, line. auto.
Qed.

Lemma records_come_from_requested_logs_witness :
  parse_log_files three_logs ["beta"; "alpha"] "/logs"
    = Ok [ mkRecord (PyInt 10) failure "beta";
           mkRecord (PyInt 20) success "beta"; sample_record ] /\
  In sample_record [ mkRecord (PyInt 10) failure "beta";
                     mkRecord (PyInt 20) success "beta"; sample_record ] /\
  In (process sample_record) ["beta"; "alpha"].
Proof.
  assert (H : parse_log_files three_logs ["beta"; "alpha"] "/logs"
              = Ok [ mkRecord (PyInt 10) failure "beta";
                     mkRecord (PyInt 20) success "beta"; sample_record ])
    by (vm_compute; reflexivity).
  assert (Hin : In sample_record [ mkRecord (PyInt 10) failure "beta";
                                   mkRecord (PyInt 20) success "beta";
                                   sample_record ])
    by (right; right; left; reflexivity).
  split; [exact H | split; [exact Hin |]].
  exact (proj1 (records_come_from_requested_logs three_logs "/logs" _ _ _ H Hin)).
Defined.

(** ** The aggregator over any decoder *)

Section AnyDecoderFacts.

Variable loads : string -> result pyval.

(** The body of the [try] block raises what the decoder raised, or a
    [TypeError] on a decoded value that is not an object; on an object it
    raises nothing, each key being read only after it was found. *)
Lemma try_entry_with_raises (name : string) (all_records : list LogRecord)
    (line : string) (e : exn) :
  try_entry_with loads name all_records line = Raise e ->
  loads line = Raise e
  \/ e = TypeError /\
     exists v, loads line = Ok v /\ forall pairs, v <> PyDict pairs.
Proof.
  unfold try_entry_with.
  destruct (loads line) as [entry | e'] eqn:Hloads; simpl.
  - intros H. right.
    assert (Hentry : e = TypeError /\ forall pairs, entry <> PyDict pairs).
    { destruct entry as [| b | z | f | s | items | pairs]; simpl in H.
      - injection H as <-. split; [reflexivity | discriminate].
      - injection H as <-. split; [reflexivity | discriminate].
      - injection H as <-. split; [reflexivity | discriminate].
      - injection H as <-. split; [reflexivity | discriminate].
      - destruct (Str.contains "exit_code" s); simpl in H; [| discriminate].
        destruct (Str.contains "timestamp" s); simpl in H; [| discriminate].
        injection H as <-. split; [reflexivity | discriminate].
      - destruct (existsb (fun x => py_eq_str x "exit_code") items);
          simpl in H; [| discriminate].
        destruct (existsb (fun x => py_eq_str x "timestamp") items);
          simpl in H; [| discriminate].
        injection H as <-. split; [reflexivity | discriminate].
      - unfold dict_has in H.
        destruct (dict_get "exit_code" pairs); simpl in H; [| discriminate].
        destruct (dict_get "timestamp" pairs); simpl in H; discriminate. }
    destruct Hentry as [He Hv]. split; [exact He |]. exists entry. auto.
  - intros H; injection H as <-. now left.
Qed.

Lemma read_line_with_raises (name : string) (all_records : list LogRecord)
    (line : string) (e : exn) :
  read_line_with loads name all_records line = Raise e ->
  e <> JSONDecodeError /\
  Str.strip line <> "" /\
  (loads (Str.strip line) = Raise e
   \/ e = TypeError /\
      exists v, loads (Str.strip line) = Ok v /\
                forall pairs, v <> PyDict pairs).
Proof.
  unfold read_line_with.
  destruct (String.eqb (Str.strip line) "") eqn:Hblank; [discriminate |].
  apply String.eqb_neq in Hblank.
  destruct (try_entry_with loads name all_records (Str.strip line))
    as [rs | e'] eqn:Htry; [discriminate |].
  apply try_entry_with_raises in Htry.
  destruct e'; try discriminate;
    intros H; injection H as <-;
    (split; [discriminate | split; [exact Hblank | exact Htry]]).
Qed.

Lemma read_lines_with_raises (name : string) (lines : list string) :
  forall all_records e,
    read_lines_with loads name lines all_records = Raise e ->
    e <> JSONDecodeError /\
    exists line,
      In line lines /\
      Str.strip line <> "" /\
      (loads (Str.strip line) = Raise e
       \/ e = TypeError /\
          exists v, loads (Str.strip line) = Ok v /\
                    forall pairs, v <> PyDict pairs).
Proof.
  induction lines as [| line rest IH]; intros all_records e; simpl;
    [discriminate |].
  destruct (read_line_with loads name all_records line) as [mid | e']
    eqn:Hline; simpl.
  - intros H. destruct (IH _ _ H) as (He & l & Hl & Hrest).
    split; [exact He |]. exists l. split; [now right | exact Hrest].
  - intros H; injection H as <-.
    destruct (read_line_with_raises _ _ _ _ Hline) as (He & Hrest).
    split; [exact He |]. exists line. split; [now left | exact Hrest].
Qed.

Lemma read_logs_with_raises (fs : FileSystem) (log_dir : string)
    (names : list string) :
  forall all_records e,
    read_logs_with loads fs log_dir names all_records = Raise e ->
    e <> JSONDecodeError /\
    exists name lines line,
      In name names /\
      fs (os_path_join log_dir (name ++ ".json")) = Some lines /\
      In line lines /\
      Str.strip line <> "" /\
      (loads (Str.strip line) = Raise e
       \/ e = TypeError /\
          exists v, loads (Str.strip line) = Ok v /\
                    forall pairs, v <> PyDict pairs).
Proof.
  induction names as [| name rest IH]; intros all_records e; simpl;
    [discriminate |].
  destruct (fs (os_path_join log_dir (name ++ ".json"))) as [lines |] eqn:Hfs.
  - destruct (read_lines_with loads name lines all_records) as [mid | e']
      eqn:Hfile; simpl.
    + intros H. destruct (IH _ _ H) as (He & n & ls & l & Hn & Hrest).
      split; [exact He |]. exists n, ls, l. split; [now right | exact Hrest].
    + intros H; injection H as <-.
      destruct (read_lines_with_raises _ _ _ _ Hfile) as (He & l & Hl & Hrest).
      split; [exact He |]. exists name, lines, l.
      split; [now left | split; [exact Hfs | split; [exact Hl | exact Hrest]]].
  - intros H. destruct (IH _ _ H) as (He & n & ls & l & Hn & Hrest).
    split; [exact He |]. exists n, ls, l. split; [now right | exact Hrest].
Qed.

End AnyDecoderFacts.

(** With [json_loads] for the decoder, the aggregator over any decoder is
    the aggregator. *)
Lemma read_lines_with_json_loads (name : string) (lines : list string) :
  forall all_records,
    read_lines_with json_loads name lines all_records
    = read_lines name lines all_records.
Proof.
  induction lines as [| line rest IH]; intros all_records; simpl;
    [reflexivity |].
  change (read_line_with json_loads name all_records line)
    with (read_line name all_records line).
  destruct (read_line name all_records line); simpl; [apply IH | reflexivity].
Qed.

Lemma read_logs_with_json_loads (fs : FileSystem) (log_dir : string)
    (names : list string) :
  forall all_records,
    read_logs_with json_loads fs log_dir names all_records
    = read_logs fs log_dir names all_records.
Proof.
  induction names as [| name rest IH]; intros all_records; simpl;
    [reflexivity |].
  destruct (fs (os_path_join log_dir (name ++ ".json"))) as [lines |];
    [| apply IH].
  rewrite read_lines_with_json_loads.
  destruct (read_lines name lines all_records); simpl; [apply IH | reflexivity].
Qed.

Lemma parse_log_files_with_json_loads (fs : FileSystem)
    (process_names : list string) (log_dir : string) :
  parse_log_files_with json_loads fs process_names log_dir
  = parse_log_files fs process_names log_dir.
Proof. apply read_logs_with_json_loads. Qed.

(** X4. Whatever [json.loads] does on a line, an exception that leaves the
    aggregator is never a [json.JSONDecodeError], and it comes from a line,
    not blank once stripped, of the log of a requested process: either
    [json.loads] raised it on that line, or the line decoded to something
    else than an object and the exception is the [TypeError] of the
    membership test or of the subscript.  So no [KeyError] arises from the
    subscripts of the aggregator, and an object never makes it raise. *)
Theorem parse_log_files_lets_out :
  forall (loads : string -> result pyval) (fs : FileSystem)
         (log_dir : string) (process_names : list string) (e : exn),
    parse_log_files_with loads fs process_names log_dir = Raise e ->
    e <> JSONDecodeError /\
    exists name lines line,
      In name process_names /\
      fs (os_path_join log_dir (name ++ ".json")) = Some lines /\
      In line lines /\
      Str.strip line <> "" /\
      (loads (Str.strip line) = Raise e
       \/ e = TypeError /\
          exists v, loads (Str.strip line) = Ok v /\
                    forall pairs, v <> PyDict pairs).
Proof.
  intros loads fs log_dir process_names e H.
  exact (read_logs_with_raises loads fs log_dir process_names [] e H).
Qed.

Lemma parse_log_files_lets_out_witness :
  parse_log_files_with json_loads three_logs ["alpha"; "gamma"; "beta"] "/logs"
    = Raise TypeError /\
  TypeError <> JSONDecodeError /\
  exists name lines line,
    In name ["alpha"; "gamma"; "beta"] /\
    three_logs (os_path_join "/logs" (name ++ ".json")) = Some lines /\
    In line lines /\
    Str.strip line <> "" /\
    (json_loads (Str.strip line) = Raise TypeError
     \/ TypeError = TypeError /\
        exists v, json_loads (Str.strip line) = Ok v /\
                  forall pairs, v <> PyDict pairs).
Proof.
  assert (H : parse_log_files_with json_loads three_logs
                ["alpha"; "gamma"; "beta"] "/logs" = Raise TypeError)
    by (vm_compute; reflexivity).
  split; [exact H |].
  exact (parse_log_files_lets_out json_loads three_logs "/logs" _ _ H).
Defined.

(** ** Totals of the series *)

Lemma iloc_last_cons (x : Z) (l : list Z) :
  iloc_last (x :: l) = match l with
                       | [] => Ok x
                       | _ :: _ => iloc_last l
                       end.
Proof.
  unfold iloc_last. destruct l as [| y l']; [reflexivity |].
  change (rev (x :: y :: l')) with (rev (y :: l') ++ [x]).
  destruct (rev (y :: l')) as [| z t] eqn:E; [| reflexivity].
  simpl in E. destruct (rev l'); discriminate.
Qed.

Lemma cumsum_last (flags : list bool) :
  forall acc,
    flags <> [] ->
    iloc_last (cumsum_from acc flags)
    = Ok (acc + Z.of_nat (List.length (filter (fun b => b) flags)))%Z.
Proof.
  induction flags as [| b rest IH]; intros acc Hne; [contradiction |].
  cbn [cumsum_from]. rewrite iloc_last_cons.
  destruct rest as [| b' rest'].
  - simpl. destruct b; simpl; f_equal; lia.
  - cbn [cumsum_from] in *. rewrite IH by discriminate.
    f_equal. destruct b; cbn [filter List.length as_int]; lia.
Qed.

Lemma map_snd_combine {A B : Type} (l1 : list A) :
  forall l2 : list B,
    (List.length l2 <= List.length l1)%nat -> map snd (combine l1 l2) = l2.
Proof.
  induction l1 as [| x l1 IH]; intros [| y l2] Hlen; simpl in *;
    try reflexivity; try lia.
  f_equal. apply IH. lia.
Qed.

Lemma with_counters_columns (df : list Row) :
  map success_count (with_counters df) = cumsum (status_is success df) /\
  map failure_count (with_counters df) = cumsum (status_is failure df).
Proof.
  unfold with_counters. rewrite !map_map. simpl.
  assert (Hs : List.length (cumsum (status_is success df)) = List.length df).
  { unfold cumsum, status_is. now rewrite cumsum_from_length, length_map. }
  assert (Hf : List.length (cumsum (status_is failure df)) = List.length df).
  { unfold cumsum, status_is. now rewrite cumsum_from_length, length_map. }
  split.
  - rewrite <- (map_map snd fst).
    rewrite map_snd_combine by (rewrite length_combine; lia).
    apply map_fst_combine. lia.
  - rewrite <- (map_map snd snd).
    rewrite map_snd_combine by (rewrite length_combine; lia).
    apply map_snd_combine. lia.
Qed.

Lemma tally_flags (s : Status) (df : list Row) :
  Z.of_nat (List.length (filter (fun b => b) (status_is s df)))
  = tally s (map row_status df).
Proof.
  unfold tally, status_is. f_equal.
  induction df as [| r rest IH]; simpl; [reflexivity |].
  destruct (Status_eqb (row_status r) s); simpl; now rewrite IH.
Qed.

Lemma tally_permutation (s : Status) (l l' : list Status) :
  Permutation l l' -> tally s l = tally s l'.
Proof.
  unfold tally. intros H. f_equal.
  induction H as [| x l l' H IH | x y l | l l' l'' H1 IH1 H2 IH2]; simpl.
  - reflexivity.
  - destruct (Status_eqb x s); simpl; now rewrite IH.
  - destruct (Status_eqb x s), (Status_eqb y s); reflexivity.
  - now rewrite IH1.
Qed.

Lemma tally_total (l : list Status) :
  (tally success l + tally failure l = Z.of_nat (List.length l))%Z.
Proof.
  unfold tally. rewrite <- Nat2Z.inj_add. f_equal.
  induction l as [| x rest IH]; simpl; [reflexivity |].
  destruct x; simpl; lia.
Qed.

Lemma frame_statuses (records : list LogRecord) :
  forall column : list datetime,
    (List.length records <= List.length column)%nat ->
    map row_status (frame records column) = map status records.
Proof.
  unfold frame.
  induction records as [| r rest IH]; intros [| t column] Hlen; simpl in *;
    try reflexivity; try lia.
  f_equal. apply IH. lia.
Qed.

Lemma cumsum_lower (flags : list bool) :
  forall acc i x,
    nth_error (cumsum_from acc flags) i = Some x -> (acc <= x)%Z.
Proof.
  induction flags as [| b rest IH]; intros acc [| i] x; simpl;
    try discriminate.
  - intros H; injection H as <-. destruct b; simpl; lia.
  - intros H. apply IH in H. destruct b; simpl in H; lia.
Qed.

Lemma cumsum_monotone (flags : list bool) :
  forall acc i j x y,
    (i <= j)%nat ->
    nth_error (cumsum_from acc flags) i = Some x ->
    nth_error (cumsum_from acc flags) j = Some y ->
    (x <= y)%Z.
Proof.
  induction flags as [| b rest IH]; intros acc [| i] [| j] x y Hij; simpl;
    try discriminate; try lia.
  - intros Hx Hy. injection Hx as <-. injection Hy as <-. lia.
  - intros Hx Hy. injection Hx as <-. now apply cumsum_lower in Hy.
  - intros Hx Hy. apply (IH (acc + as_int b)%Z i j); [lia | exact Hx | exact Hy].
Qed.

(** X5. Along the series neither counter ever decreases, and at index [i]
    each lies between 0 and [i + 1]. *)
Theorem counters_never_decrease :
  forall (df : list Row) (i j : nat) (earlier later : SeriesRow),
    (i <= j)%nat ->
    nth_error (with_counters df) i = Some earlier ->
    nth_error (with_counters df) j = Some later ->
    (success_count earlier <= success_count later)%Z /\
    (failure_count earlier <= failure_count later)%Z /\
    (0 <= success_count earlier <= Z.of_nat i + 1)%Z /\
    (0 <= failure_count earlier <= Z.of_nat i + 1)%Z.
Proof.
  intros df i j earlier later Hij Hi Hj.
  destruct (with_counters_spec df) as (Hsum & _ & _).
  specialize (Hsum _ _ Hi).
  apply with_counters_nth in Hi as (_ & His & Hif).
  apply with_counters_nth in Hj as (_ & Hjs & Hjf).
  unfold cumsum in *.
  pose proof (cumsum_monotone _ _ _ _ _ _ Hij His Hjs).
  pose proof (cumsum_monotone _ _ _ _ _ _ Hij Hif Hjf).
  pose proof (cumsum_lower _ _ _ _ His).
  pose proof (cumsum_lower _ _ _ _ Hif).
  lia.
Qed.

Lemma counters_never_decrease_witness :
  let df := Sample.sort_values (frame five_records
                                  [Some 30; Some 10; Some 20; Some 10; Some 30]%Z) in
  (1 <= 4)%nat /\
  nth_error (with_counters df) 1
    = Some (mkSeriesRow (mkRow (Some 10%Z) failure "beta") 1 1) /\
  nth_error (with_counters df) 4
    = Some (mkSeriesRow (mkRow (Some 30%Z) success "beta") 3 2) /\
  (1 <= 3)%Z /\ (1 <= 2)%Z.
Proof.
  intros df.
  assert (H1 : (1 <= 4)%nat) by lia.
  assert (H2 : nth_error (with_counters df) 1
               = Some (mkSeriesRow (mkRow (Some 10%Z) failure "beta") 1 1))
    by reflexivity.
  assert (H3 : nth_error (with_counters df) 4
               = Some (mkSeriesRow (mkRow (Some 30%Z) success "beta") 3 2))
    by reflexivity.
  destruct (counters_never_decrease df 1 4 _ _ H1 H2 H3) as (Hs & Hf & _).
  split; [exact H1 | split; [exact H2 | split; [exact H3 |]]].
  split; [exact Hs | exact Hf].
Defined.

Section DashboardFacts.

Variable to_datetime : list pyval -> result (list datetime).
Variable sort_values : list Row -> list Row.
Variable sort_values_desc : list Row -> list Row.

Hypothesis to_datetime_keeps_length :
  forall column ts, to_datetime column = Ok ts ->
                    List.length ts = List.length column.
Hypothesis sort_values_contract : sort_contract sort_values.

Lemma sorted_frame_tally (s : Status) (records : list LogRecord)
    (column : list datetime) :
  to_datetime (map timestamp records) = Ok column ->
  tally s (map row_status (sort_values (frame records column)))
  = tally s (map status records).
Proof.
  intros H. apply to_datetime_keeps_length in H. rewrite length_map in H.
  rewrite <- (frame_statuses records column) by lia.
  apply tally_permutation, Permutation_map.
  apply (sort_permutes _ sort_values_contract).
Qed.

Lemma sorted_frame_total (s : Status) (records : list LogRecord)
    (column : list datetime) :
  records <> [] ->
  to_datetime (map timestamp records) = Ok column ->
  iloc_last (cumsum (status_is s (sort_values (frame records column))))
  = Ok (tally s (map status records)).
Proof.
  intros Hne H. unfold cumsum. rewrite cumsum_last.
  - rewrite tally_flags, (sorted_frame_tally s records column H). reflexivity.
  - intros Hnil. apply (f_equal (@List.length bool)) in Hnil.
    unfold status_is in Hnil. rewrite length_map in Hnil.
    rewrite (Permutation_length (sort_permutes _ sort_values_contract _)) in Hnil.
    rewrite (frame_length to_datetime to_datetime_keeps_length _ _ H) in Hnil.
    destruct records; [contradiction | discriminate].
Qed.

(** X6. When the aggregation gives records and their timestamps convert,
    the main area shows, without an exception, three metrics, the chart and
    the table; the metrics are the number of [success] records, the number
    of [failure] records and the number of all records of the aggregate,
    whatever order the sort puts the rows in. *)
Theorem metrics_count_the_records :
  forall (fs : FileSystem) (selected_processes : list string)
         (log_dir : string) (df : list LogRecord) (column : list datetime),
    parse_log_files fs selected_processes log_dir = Ok df ->
    df <> [] ->
    to_datetime (map timestamp df) = Ok column ->
    exists series,
      build_series to_datetime sort_values df = Ok series /\
      main_dashboard to_datetime sort_values sort_values_desc
                     fs selected_processes (PyStr log_dir) =
        ([ st_metric "✅ Total Successes" (tally success (map status df));
           st_metric "❌ Total Failures" (tally failure (map status df));
           st_metric "Total Runs" (Z.of_nat (List.length df));
           st_plotly_chart series;
           st_dataframe (sort_values_desc (map series_row series)) ],
         Ok tt).
Proof.
  intros fs selected_processes log_dir df column Hparse Hne Hcolumn.
  exists (with_counters (sort_values (frame df column))).
  assert (Hbuild : build_series to_datetime sort_values df
                   = Ok (with_counters (sort_values (frame df column))))
    by (unfold build_series; now rewrite Hcolumn).
  split; [exact Hbuild |].
  unfold main_dashboard.
  destruct selected_processes as [| name rest].
  { unfold parse_log_files in Hparse. simpl in Hparse.
    injection Hparse as <-. contradiction. }
  rewrite Hparse. destruct df as [| r df']; [contradiction |].
  cbn [lift ui_bind]. rewrite Hbuild.
  destruct (with_counters_columns (sort_values (frame (r :: df') column)))
    as [Hs Hf].
  rewrite Hs, Hf.
  rewrite !(sorted_frame_total _ (r :: df') column Hne Hcolumn).
  cbn [lift ui_bind emit app].
  rewrite (tally_total (map status (r :: df'))), length_map.
  reflexivity.
Qed.

(** X7. When the aggregation gives records and [pd.to_datetime] raises on
    their timestamps, the exception leaves the script: the main area shows
    nothing, neither metrics nor a notice. *)
Theorem conversion_failure_ends_the_script :
  forall (fs : FileSystem) (selected_processes : list string)
         (log_dir : string) (df : list LogRecord) (e : exn),
    parse_log_files fs selected_processes log_dir = Ok df ->
    df <> [] ->
    to_datetime (map timestamp df) = Raise e ->
    main_dashboard to_datetime sort_values sort_values_desc
                   fs selected_processes (PyStr log_dir) = ([], Raise e).
Proof.
  intros fs selected_processes log_dir df e Hparse Hne Hraise.
  unfold main_dashboard.
  destruct selected_processes as [| name rest].
  { unfold parse_log_files in Hparse. simpl in Hparse.
    injection Hparse as <-. contradiction. }
  rewrite Hparse. destruct df as [| r df']; [contradiction |].
  cbn [lift ui_bind]. unfold build_series. rewrite Hraise. reflexivity.
Qed.

End DashboardFacts.

Lemma metrics_count_the_records_witness :
  let df := [ mkRecord (PyInt 10) failure "beta";
              mkRecord (PyInt 20) success "beta" ] in
  parse_log_files three_logs ["beta"] "/logs" = Ok df /\
  df <> [] /\
  Sample.to_datetime (map timestamp df) = Ok [Some 10%Z; Some 20%Z] /\
  exists series,
    build_series Sample.to_datetime Sample.sort_values df = Ok series /\
    main_dashboard Sample.to_datetime Sample.sort_values Sample.sort_values_desc
                   three_logs ["beta"] (PyStr "/logs") =
      ([ st_metric "✅ Total Successes" 1; st_metric "❌ Total Failures" 1;
         st_metric "Total Runs" 2;
         st_plotly_chart series;
         st_dataframe (Sample.sort_values_desc (map series_row series)) ],
       Ok tt).
Proof.
  intros df.
  assert (H1 : parse_log_files three_logs ["beta"] "/logs" = Ok df)
    by (vm_compute; reflexivity).
  assert (H2 : df <> []) by discriminate.
  assert (H3 : Sample.to_datetime (map timestamp df)
               = Ok [Some 10%Z; Some 20%Z]) by reflexivity.
  split; [exact H1 | split; [exact H2 | split; [exact H3 |]]].
  exact (metrics_count_the_records Sample.to_datetime Sample.sort_values
           Sample.sort_values_desc sample_to_datetime_length
           sample_sort_contract three_logs ["beta"] "/logs" df _ H1 H2 H3).
Defined.

Lemma conversion_failure_ends_the_script_witness :
  parse_log_files three_logs ["alpha"] "/logs" = Ok [sample_record] /\
  [sample_record] <> [] /\
  to_datetime_rejects (map timestamp [sample_record])
    = Raise (ValueError "unknown datetime string format") /\
  main_dashboard to_datetime_rejects Sample.sort_values Sample.sort_values_desc
                 three_logs ["alpha"] (PyStr "/logs")
    = ([], Raise (ValueError "unknown datetime string format")).
Proof.
  assert (H1 : parse_log_files three_logs ["alpha"] "/logs" = Ok [sample_record])
    by (vm_compute; reflexivity).
  assert (H2 : [sample_record] <> []) by discriminate.
  assert (H3 : to_datetime_rejects (map timestamp [sample_record])
               = Raise (ValueError "unknown datetime string format"))
    by reflexivity.
  split; [exact H1 | split; [exact H2 | split; [exact H3 |]]].
  exact (conversion_failure_ends_the_script to_datetime_rejects
           Sample.sort_values Sample.sort_values_desc
           three_logs ["alpha"] "/logs" _ _ H1 H2 H3).
Defined.

(** ** More on the selection *)

Lemma insert_sorted_permutes (x : string) (l : list string) :
  Permutation (insert_sorted x l) (x :: l).
Proof.
  induction l as [| y rest IH]; simpl; [reflexivity |].
  destruct (String.leb x y); [reflexivity |].
  rewrite IH. apply perm_swap.
Qed.

Lemma sorted_permutes (l : list string) : Permutation (sorted l) l.
Proof.
  induction l as [| x rest IH]; simpl; [reflexivity |].
  rewrite insert_sorted_permutes. now constructor.
Qed.

Lemma insert_sorted_ascends (x : string) (l : list string) :
  Sorted (fun a b => String.leb a b = true) l ->
  Sorted (fun a b => String.leb a b = true) (insert_sorted x l).
Proof.
  induction l as [| y rest IH]; intros Hs; simpl.
  - repeat constructor.
  - inversion Hs as [| ? ? Hrest Hhd]; subst.
    destruct (String.leb x y) eqn:Hxy.
    + constructor; [exact Hs | constructor; exact Hxy].
    + constructor; [now apply IH |].
      assert (Hyx : String.leb y x = true).
      { destruct (String.leb_total x y) as [H | H]; [congruence | exact H]. }
      destruct rest as [| z rest']; simpl.
      * constructor; exact Hyx.
      * destruct (String.leb x z); constructor;
          [exact Hyx | now inversion Hhd].
Qed.

Lemma sorted_ascends (l : list string) :
  Sorted (fun a b => String.leb a b = true) (sorted l).
Proof.
  induction l as [| x rest IH]; simpl;
    [constructor | now apply insert_sorted_ascends].
Qed.

Lemma py_in_str (s : string) (l : list string) :
  py_in (PyStr s) l = Str.mem s l.
Proof. reflexivity. Qed.

Lemma py_in_inv (p : pyval) (l : list string) :
  py_in p l = true -> exists s, p = PyStr s /\ In s l.
Proof.
  unfold py_in. intros H. apply existsb_exists in H as (x & Hx & Heq).
  destruct p; try discriminate. simpl in Heq.
  apply String.eqb_eq in Heq. subst. eauto.
Qed.

Lemma filter_map_strs (f : string -> bool) (g : pyval -> bool)
    (names : list string) :
  (forall s, g (PyStr s) = f s) ->
  filter g (map PyStr names) = map PyStr (filter f names).
Proof.
  intros Hfg. induction names as [| n rest IH]; simpl; [reflexivity |].
  rewrite Hfg. destruct (f n); simpl; now rewrite IH.
Qed.

Lemma py_strs_of_strs (names : list string) :
  py_strs (map PyStr names) = Ok names.
Proof.
  induction names as [| n rest IH]; simpl; [reflexivity |].
  now rewrite IH.
Qed.

Lemma py_strs_not_str (l : list pyval) (p : pyval) :
  In p l ->
  (forall s, p <> PyStr s) ->
  py_strs l = Raise TypeError.
Proof.
  intros Hin Hp. induction l as [| q rest IH]; [contradiction |].
  destruct Hin as [-> | Hin].
  - destruct p; try reflexivity. now destruct (Hp s).
  - specialize (IH Hin). simpl. rewrite IH.
    destruct q; reflexivity.
Qed.

(** X8. The defaults handed to the multiselect are among its options:
    every pre-selected item is a string that occurs in the option list, and
    the option list is the available names in ascending order. *)
Theorem defaults_are_options :
  forall (items : list pyval) (files : list string),
    (forall p, In p (sanitized_selection items (available_logs files)) ->
               exists s, p = PyStr s /\ In s (sorted (available_logs files))) /\
    Permutation (sorted (available_logs files)) (available_logs files) /\
    Sorted (fun a b => String.leb a b = true) (sorted (available_logs files)).
Proof.
  intros items files. split; [| split].
  - intros p Hin. unfold sanitized_selection in Hin.
    apply filter_In in Hin as [_ Hin].
    apply py_in_inv in Hin as (s & -> & Hs). exists s. split; [reflexivity |].
    apply (Permutation_in _ (Permutation_sym (sorted_permutes _)) Hs).
  - apply sorted_permutes.
  - apply sorted_ascends.
Qed.

(** X9. For a log directory that can be listed and a requested list of
    strings, the selection raises nothing: it warns once, naming in
    requested order the names that are not available, when there are any,
    then shows the multiselect with the available names sorted and the
    requested available names as default, and returns what the widget
    holds. *)
Theorem selection_of_names :
  forall (w : World) (log_dir : pyval) (names files : list string),
    py_truthy log_dir = true ->
    listdir w log_dir = Ok files ->
    let available := available_logs files in
    let chosen := filter (fun n => Str.mem n available) names in
    let missing := filter (fun n => negb (Str.mem n available)) names in
    select_processes w log_dir (PyList (map PyStr names)) =
      (match missing with
       | [] => []
       | _ :: _ =>
           [st_sidebar_warning
              ("Note: The following processes have no logs yet and were not pre-selected: "
               ++ Str.join ", " missing)]
       end
       ++ [st_sidebar_multiselect (sorted available) (map PyStr chosen)],
       Ok (multiselect w (sorted available) (map PyStr chosen))).
Proof.
  intros w log_dir names files Htruthy Hlist available chosen missing.
  unfold select_processes. rewrite Htruthy, Hlist.
  cbn [lift ui_bind py_iter]. fold available.
  unfold sanitized_selection, ignored_processes.
  rewrite (filter_map_strs (fun n => Str.mem n available)
             (fun p => py_in p available))
    by (intros s; apply py_in_str).
  rewrite (filter_map_strs (fun n => negb (Str.mem n available))
             (fun p => negb (py_in p available)))
    by (intros s; now rewrite py_in_str).
  fold chosen. fold missing.
  destruct missing as [| m rest] eqn:Hmissing.
  - reflexivity.
  - change (PyStr m :: map PyStr rest) with (map PyStr (m :: rest)).
    rewrite py_strs_of_strs. reflexivity.
Qed.

Lemma selection_of_names_witness :
  py_truthy (PyStr "/logs") = true /\
  listdir sample_world (PyStr "/logs") = Ok sample_listing /\
  select_processes sample_world (PyStr "/logs")
                   (PyList (map PyStr ["zeta"; "gamma"; "eta"; "alpha"])) =
    ([ st_sidebar_warning
         "Note: The following processes have no logs yet and were not pre-selected: zeta, eta";
       st_sidebar_multiselect ["alpha"; "beta"; "gamma"]
                              [PyStr "gamma"; PyStr "alpha"] ],
     Ok ["beta"]).
Proof.
  assert (H1 : py_truthy (PyStr "/logs") = true) by reflexivity.
  assert (H2 : listdir sample_world (PyStr "/logs") = Ok sample_listing)
    by reflexivity.
  split; [exact H1 | split; [exact H2 |]].
  exact (selection_of_names sample_world (PyStr "/logs")
           ["zeta"; "gamma"; "eta"; "alpha"] sample_listing H1 H2).
Defined.

(** X10. A requested list that holds an item that is not a string ends the
    script with [TypeError] when the warning is built, before the
    multiselect is shown; a requested value that is a number, a boolean or
    [None] ends it as soon as it is iterated. *)
Theorem selection_of_ill_typed_names :
  forall (w : World) (log_dir initial : pyval) (files : list string),
    py_truthy log_dir = true ->
    listdir w log_dir = Ok files ->
    (match initial with
     | PyNone | PyBool _ | PyInt _ | PyFloat _ => True
     | PyList items => exists p, In p items /\ forall s, p <> PyStr s
     | PyStr _ | PyDict _ => False
     end) ->
    select_processes w log_dir initial = ([], Raise TypeError).
Proof.
  intros w log_dir initial files Htruthy Hlist Hbad.
  unfold select_processes. rewrite Htruthy, Hlist. cbn [lift ui_bind].
  destruct initial as [| b | z | f | s | items | pairs]; try contradiction;
    try reflexivity.
  destruct Hbad as (p & Hin & Hp). cbn [py_iter ui_bind].
  assert (Hign : In p (ignored_processes items (available_logs files))).
  { unfold ignored_processes. apply filter_In. split; [exact Hin |].
    destruct (py_in p (available_logs files)) eqn:E; [| reflexivity].
    apply py_in_inv in E as (s & -> & _). now destruct (Hp s). }
  destruct (ignored_processes items (available_logs files)) as [| q rest] eqn:E;
    [contradiction |].
  rewrite (py_strs_not_str (q :: rest) p Hign Hp). reflexivity.
Qed.

Lemma selection_of_ill_typed_names_witness :
  py_truthy (PyStr "/logs") = true /\
  listdir sample_world (PyStr "/logs") = Ok sample_listing /\
  select_processes sample_world (PyStr "/logs")
                   (PyList [PyInt 1; PyInt 2]) = ([], Raise TypeError).
Proof.
  assert (H1 : py_truthy (PyStr "/logs") = true) by reflexivity.
  assert (H2 : listdir sample_world (PyStr "/logs") = Ok sample_listing)
    by reflexivity.
  split; [exact H1 | split; [exact H2 |]].
  apply (selection_of_ill_typed_names sample_world (PyStr "/logs")
           (PyList [PyInt 1; PyInt 2]) sample_listing H1 H2).
  exists (PyInt 1). split; [left; reflexivity | discriminate].
Defined.

(** ** File names and the names of processes *)

Lemma prefix_nil (s : string) : prefix "" s = true.
Proof. destruct s; reflexivity. Qed.

Lemma prefix_cons (a b : ascii) (p s : string) :
  prefix (String a p) (String b s)
  = if Ascii.eqb a b then prefix p s else false.
Proof.
  change (prefix (String a p) (String b s))
    with (if ascii_dec a b then prefix p s else false).
  destruct (ascii_dec a b) as [-> | Hne].
  - now rewrite Ascii.eqb_refl.
  - apply Ascii.eqb_neq in Hne. now rewrite Hne.
Qed.

(** A prefix of [s ++ u] is a prefix of [s], or runs over the end of [s]
    into [u]. *)
Lemma prefix_app (p : string) :
  forall s u,
    prefix p (s ++ u) = true ->
    prefix p s = true \/
    exists p1 p2, p = (p1 ++ p2)%string /\ p2 <> "" /\ s = p1
                  /\ prefix p2 u = true.
Proof.
  induction p as [| a p IH]; intros s u H.
  - left. apply prefix_nil.
  - destruct s as [| b s].
    + right. exists "", (String a p). repeat split; [discriminate | exact H].
    + change (String b s ++ u)%string with (String b (s ++ u)) in H.
      rewrite prefix_cons in H. rewrite prefix_cons.
      destruct (Ascii.eqb a b) eqn:Hab; [| discriminate].
      apply Ascii.eqb_eq in Hab. subst b.
      destruct (IH _ _ H) as [Hp | (p1 & p2 & -> & Hp2 & -> & Hu)].
      * now left.
      * right. exists (String a p1), p2. repeat split; assumption.
Qed.

Lemma json_extension_no_overlap (stem : string) :
  stem <> "" ->
  prefix ".json" (stem ++ ".json") = true ->
  prefix ".json" stem = true.
Proof.
  intros Hne H.
  destruct (prefix_app _ _ _ H) as [Hp | (p1 & p2 & Heq & Hp2 & -> & Hu)];
    [exact Hp |].
  exfalso.
  destruct p1 as [| c0 p1]; [now apply Hne |].
  injection Heq as _ Heq.
  do 4 (destruct p1 as [| ? p1];
        [simpl in Heq; subst p2; vm_compute in Hu; discriminate
        | injection Heq as _ Heq]).
  destruct p1; [simpl in Heq; now subst p2 | discriminate].
Qed.

Lemma contains_cons (sub : string) (c : ascii) (s : string) :
  Str.contains sub (String c s)
  = prefix sub (String c s) || Str.contains sub s.
Proof. reflexivity. Qed.

Lemma replace_from_cons (old new : string) (c : ascii) (s : string) :
  Str.replace_from old new 0 (String c s)
  = if prefix old (String c s)
    then (new ++ Str.replace_from old new (String.length old - 1) s)%string
    else String c (Str.replace_from old new 0 s).
Proof. reflexivity. Qed.

(** Removing [.json] from a file name whose stem is free of it gives the
    stem. *)
Lemma replace_extension (stem : string) :
  Str.contains ".json" stem = false ->
  Str.replace ".json" "" (stem ++ ".json") = stem.
Proof.
  unfold Str.replace.
  induction stem as [| c t IH]; intros Hfree; [reflexivity |].
  rewrite contains_cons in Hfree. apply orb_false_iff in Hfree as [Hp Hc].
  change (String c t ++ ".json")%string with (String c (t ++ ".json")).
  rewrite replace_from_cons.
  destruct (prefix ".json" (String c (t ++ ".json"))) eqn:E.
  - apply (json_extension_no_overlap (String c t)) in E; [| discriminate].
    congruence.
  - f_equal. now apply IH.
Qed.

Lemma str_length_app (a b : string) :
  String.length (a ++ b) = (String.length a + String.length b)%nat.
Proof. induction a as [| c a IH]; simpl; [| rewrite IH]; reflexivity. Qed.

Lemma substring_full (s : string) : substring 0 (String.length s) s = s.
Proof. induction s as [| c s IH]; simpl; [| rewrite IH]; reflexivity. Qed.

Lemma substring_app_tail (a b : string) :
  substring (String.length a) (String.length b) (a ++ b) = b.
Proof.
  induction a as [| c a IH]; simpl; [apply substring_full | exact IH].
Qed.

Lemma substring_app_head (a b : string) :
  substring 0 (String.length a) (a ++ b) = a.
Proof.
  induction a as [| c a IH]; simpl.
  - destruct b; reflexivity.
  - now rewrite IH.
Qed.

Lemma substring_split (s : string) :
  forall n,
    (n <= String.length s)%nat ->
    s = (substring 0 n s ++ substring n (String.length s - n) s)%string.
Proof.
  induction s as [| c s IH]; intros [| n] Hn; simpl in *; try lia.
  - reflexivity.
  - now rewrite substring_full.
  - f_equal. apply IH. lia.
Qed.

Lemma endswith_app (stem suf : string) : Str.endswith (stem ++ suf) suf = true.
Proof.
  unfold Str.endswith. rewrite str_length_app.
  apply andb_true_iff. split.
  - apply Nat.leb_le. lia.
  - replace (String.length stem + String.length suf - String.length suf)%nat
      with (String.length stem) by lia.
    rewrite substring_app_tail. apply String.eqb_refl.
Qed.

Lemma endswith_inv (s suf : string) :
  Str.endswith s suf = true -> exists stem, s = (stem ++ suf)%string.
Proof.
  unfold Str.endswith. intros H. apply andb_true_iff in H as [Hlen Heq].
  apply Nat.leb_le in Hlen. apply String.eqb_eq in Heq.
  exists (substring 0 (String.length s - String.length suf) s).
  assert (Hn : (String.length s - String.length suf <= String.length s)%nat)
    by lia.
  pose proof (substring_split s _ Hn) as Hs.
  replace (String.length s - (String.length s - String.length suf))%nat
    with (String.length suf) in Hs by lia.
  now rewrite Heq in Hs.
Qed.

Lemma mem_in (x : string) (l : list string) :
  Str.mem x l = true <-> In x l.
Proof.
  unfold Str.mem. rewrite existsb_exists. split.
  - intros (y & Hy & Heq). apply String.eqb_eq in Heq. now subst.
  - intros H. exists x. split; [exact H | apply String.eqb_refl].
Qed.

Lemma plain_listingb_sound (files : list string) :
  plain_listingb files = true -> plain_listing files.
Proof.
  unfold plain_listingb, plain_listing. intros H stem Hin.
  rewrite forallb_forall in H. specialize (H _ Hin).
  rewrite endswith_app in H. simpl in H.
  rewrite str_length_app in H.
  replace (String.length stem + String.length ".json" - 5)%nat
    with (String.length stem) in H by (simpl; lia).
  rewrite substring_app_head in H.
  now apply negb_true_iff in H.
Qed.

Lemma available_iff_has_log (files : list string) (name : string) :
  plain_listing files ->
  Str.mem name (available_logs files) = has_log files name.
Proof.
  intros Hplain. unfold has_log.
  destruct (Str.mem (name ++ ".json") files) eqn:Hfile.
  - apply mem_in in Hfile. apply mem_in. unfold available_logs.
    apply in_map_iff. exists (name ++ ".json")%string. split.
    + apply replace_extension. now apply Hplain.
    + apply filter_In. split; [exact Hfile | apply endswith_app].
  - destruct (Str.mem name (available_logs files)) eqn:Hav; [| reflexivity].
    apply mem_in in Hav. unfold available_logs in Hav.
    apply in_map_iff in Hav as (f & Hname & Hf).
    apply filter_In in Hf as [Hin Hend].
    apply endswith_inv in Hend as (stem & ->).
    rewrite (replace_extension stem (Hplain _ Hin)) in Hname. subst stem.
    apply mem_in in Hin. congruence.
Qed.

(** X11. When [.json] occurs in no file name of the log directory before
    the extension, the available names are exactly the names whose log file
    is listed; of a requested list of names, those with a log file are
    pre-selected and those without are the ignored ones, both in requested
    order. *)
Theorem selection_follows_log_files :
  forall (files names : list string),
    plain_listing files ->
    (forall name,
        Str.mem name (available_logs files) = true <->
        In (name ++ ".json")%string files) /\
    sanitized_selection (map PyStr names) (available_logs files)
      = map PyStr (filter (has_log files) names) /\
    ignored_processes (map PyStr names) (available_logs files)
      = map PyStr (filter (fun n => negb (has_log files n)) names).
Proof.
  intros files names Hplain. split; [| split].
  - intros name. rewrite (available_iff_has_log files name Hplain).
    apply mem_in.
  - unfold sanitized_selection.
    apply (filter_map_strs (has_log files)
             (fun p => py_in p (available_logs files))).
    intros s. rewrite py_in_str. now apply available_iff_has_log.
  - unfold ignored_processes.
    apply (filter_map_strs (fun n => negb (has_log files n))
             (fun p => negb (py_in p (available_logs files)))).
    intros s. rewrite py_in_str. f_equal. now apply available_iff_has_log.
Qed.

Lemma selection_follows_log_files_witness :
  plain_listing sample_listing /\
  sanitized_selection (map PyStr ["zeta"; "gamma"; "notes.txt"; "alpha"])
                      (available_logs sample_listing)
    = [PyStr "gamma"; PyStr "alpha"] /\
  ignored_processes (map PyStr ["zeta"; "gamma"; "notes.txt"; "alpha"])
                    (available_logs sample_listing)
    = [PyStr "zeta"; PyStr "notes.txt"].
Proof.
  assert (H : plain_listing sample_listing)
    by (apply plain_listingb_sound; reflexivity).
  split; [exact H |].
  exact (proj2 (selection_follows_log_files sample_listing
                  ["zeta"; "gamma"; "notes.txt"; "alpha"] H)).
Defined.

(** ** More on the config loader *)

Lemma read_config_ok (pairs : list (string * pyval)) (log_dir names : pyval) :
  read_config (Ok pairs) = Ok (log_dir, names) <->
  exists output,
    dict_get "output_path" pairs = Some (PyDict output) /\
    dict_get "logs" output = Some log_dir /\
    ((dict_get "process_dashboard" pairs = None /\ names = PyList []) \/
     exists section,
       dict_get "process_dashboard" pairs = Some (PyDict section) /\
       names = match dict_get "names" section with
               | Some v => v
               | None => PyList []
               end).
Proof.
  unfold read_config. simpl. split.
  - destruct (dict_get "output_path" pairs) as [out |] eqn:Hout; simpl;
      [| discriminate].
    destruct out as [| | | | | | output]; simpl; try discriminate.
    destruct (dict_get "logs" output) as [d |] eqn:Hlogs; simpl;
      [| discriminate].
    destruct (dict_get "process_dashboard" pairs) as [sec |] eqn:Hsec; simpl.
    + destruct sec as [| | | | | | section]; simpl; try discriminate.
      intros H; injection H as <- <-. exists output.
      split; [reflexivity | split; [exact Hlogs |]].
      right. exists section. split; reflexivity.
    + intros H; injection H as <- <-. exists output.
      split; [reflexivity | split; [exact Hlogs |]].
      left. split; reflexivity.
  - intros (output & Hout & Hlogs & [[Hsec ->] | (section & Hsec & ->)]);
      rewrite Hout; simpl; rewrite Hlogs; simpl; rewrite Hsec; reflexivity.
Qed.

(** X12. The config loads without an error exactly when [output_path] is a
    table that holds [logs] and [process_dashboard] is absent or a table;
    the loader then returns the value of [logs] and the value of [names],
    or the empty list when the section or the key is absent. *)
Theorem config_loads_exactly_when :
  forall (pairs : list (string * pyval)) (log_dir names : pyval),
    load_app_config (Ok pairs) = ([], Ok (log_dir, names)) <->
    exists output,
      dict_get "output_path" pairs = Some (PyDict output) /\
      dict_get "logs" output = Some log_dir /\
      ((dict_get "process_dashboard" pairs = None /\ names = PyList []) \/
       exists section,
         dict_get "process_dashboard" pairs = Some (PyDict section) /\
         names = match dict_get "names" section with
                 | Some v => v
                 | None => PyList []
                 end).
Proof.
  intros pairs log_dir names. rewrite <- read_config_ok.
  unfold load_app_config.
  destruct (read_config (Ok pairs)) as [r | e]; split; intros H.
  - now injection H as ->.
  - now rewrite H.
  - discriminate.
  - discriminate.
Qed.

(** X13. A value that is not a table where the loader expects one gives up
    the whole config: when [output_path] is not a table the loader shows a
    [TypeError], and when [process_dashboard] is present and not a table it
    shows an [AttributeError] and drops the log directory it had found; in
    both cases it returns [(None, [])]. *)
Theorem ill_typed_config_is_dropped :
  forall (pairs : list (string * pyval)) (e : exn),
    ((exists v, dict_get "output_path" pairs = Some v /\
                is_table v = false /\ e = TypeError) \/
     (exists output log_dir v,
         dict_get "output_path" pairs = Some (PyDict output) /\
         dict_get "logs" output = Some log_dir /\
         dict_get "process_dashboard" pairs = Some v /\
         is_table v = false /\ e = AttributeError)) ->
    load_app_config (Ok pairs) = ([st_error e], Ok (PyNone, PyList [])).
Proof.
  intros pairs e
    [(v & Hout & Hv & ->) | (output & d & v & Hout & Hlogs & Hsec & Hv & ->)];
    unfold load_app_config, read_config; simpl; rewrite Hout; simpl.
  - destruct v; try reflexivity; discriminate.
  - rewrite Hlogs. simpl. rewrite Hsec. simpl.
    destruct v; try reflexivity; discriminate.
Qed.

Lemma ill_typed_config_is_dropped_witness :
  (exists output log_dir v,
      dict_get "output_path" config_with_bad_section = Some (PyDict output) /\
      dict_get "logs" output = Some log_dir /\
      dict_get "process_dashboard" config_with_bad_section = Some v /\
      is_table v = false /\ AttributeError = AttributeError) /\
  load_app_config (Ok config_with_bad_section)
    = ([st_error AttributeError], Ok (PyNone, PyList [])).
Proof.
  assert (H : exists output log_dir v,
             dict_get "output_path" config_with_bad_section
               = Some (PyDict output) /\
             dict_get "logs" output = Some log_dir /\
             dict_get "process_dashboard" config_with_bad_section = Some v /\
             is_table v = false /\ AttributeError = AttributeError).
  { exists [("logs", PyStr "/logs")], (PyStr "/logs"), (PyStr "alpha").
    repeat split. }
  split; [exact H |].
  exact (ill_typed_config_is_dropped config_with_bad_section AttributeError
           (or_intror H)).
Defined.

(** ** Runs of the whole script *)

Section RunFacts.

Variable to_datetime : list pyval -> result (list datetime).
Variable sort_values : list Row -> list Row.
Variable sort_values_desc : list Row -> list Row.

Lemma load_app_config_ok (toml_load : result (list (string * pyval)))
    (r : pyval * pyval) :
  read_config toml_load = Ok r -> load_app_config toml_load = ([], Ok r).
Proof. intros H. unfold load_app_config. now rewrite H. Qed.

(** X14. When the config gives a log directory and [os.listdir] raises on
    it, the exception leaves the script right after the sidebar notice:
    nothing catches it, and neither the multiselect nor the main area is
    shown. *)
Theorem listing_failure_ends_the_script :
  forall (w : World) (log_dir config_processes : pyval) (e : exn),
    read_config (config_file w) = Ok (log_dir, config_processes) ->
    py_truthy log_dir = true ->
    listdir w log_dir = Raise e ->
    script to_datetime sort_values sort_values_desc w =
      ([ st_set_page_config; st_title;
         snd (initial_selection (argv w) config_processes) ],
       Raise e).
Proof.
  intros w log_dir config_processes e Hcfg Htruthy Hlist.
  unfold script. rewrite (load_app_config_ok _ _ Hcfg). simpl.
  destruct (initial_selection (argv w) config_processes) as [initial notice].
  unfold select_processes. rewrite Htruthy, Hlist. reflexivity.
Qed.

(** X15. When the config loads but the value of [logs] is false in Python's
    sense, the empty string for one, the script treats it as no log
    directory, without showing an error: it warns that the dashboard cannot
    function, never lists a directory or reads a log, and ends by asking
    for a selection. *)
Theorem falsy_log_directory_is_no_directory :
  forall (w : World) (log_dir config_processes : pyval),
    read_config (config_file w) = Ok (log_dir, config_processes) ->
    py_truthy log_dir = false ->
    script to_datetime sort_values sort_values_desc w =
      ([ st_set_page_config; st_title;
         snd (initial_selection (argv w) config_processes);
         st_warning
           "Could not find log directory from config. The dashboard cannot function.";
         st_markdown;
         st_info
           "Please select at least one process from the sidebar to begin monitoring." ],
       Ok tt).
Proof.
  intros w log_dir config_processes Hcfg Hfalsy.
  unfold script. rewrite (load_app_config_ok _ _ Hcfg). simpl.
  destruct (initial_selection (argv w) config_processes) as [initial notice].
  unfold select_processes. rewrite Hfalsy. reflexivity.
Qed.

End RunFacts.

Lemma listing_failure_ends_the_script_witness :
  read_config (config_file world_without_directory)
    = Ok (PyStr "/logs", PyList [PyStr "alpha"; PyStr "zeta"]) /\
  py_truthy (PyStr "/logs") = true /\
  listdir world_without_directory (PyStr "/logs")
    = Raise (OSError "No such file or directory: /logs") /\
  script Sample.to_datetime Sample.sort_values Sample.sort_values_desc
         world_without_directory =
    ([ st_set_page_config; st_title;
       st_sidebar_info
         "Monitoring default processes from config.toml [process_dashboard]." ],
     Raise (OSError "No such file or directory: /logs")).
Proof.
  assert (H1 : read_config (config_file world_without_directory)
               = Ok (PyStr "/logs", PyList [PyStr "alpha"; PyStr "zeta"]))
    by reflexivity.
  assert (H2 : py_truthy (PyStr "/logs") = true) by reflexivity.
  assert (H3 : listdir world_without_directory (PyStr "/logs")
               = Raise (OSError "No such file or directory: /logs"))
    by reflexivity.
  split; [exact H1 | split; [exact H2 | split; [exact H3 |]]].
  exact (listing_failure_ends_the_script Sample.to_datetime Sample.sort_values
           Sample.sort_values_desc world_without_directory _ _ _ H1 H2 H3).
Defined.

Lemma falsy_log_directory_is_no_directory_witness :
  read_config (config_file world_with_empty_path) = Ok (PyStr "", PyList []) /\
  py_truthy (PyStr "") = false /\
  script Sample.to_datetime Sample.sort_values Sample.sort_values_desc
         world_with_empty_path =
    ([ st_set_page_config; st_title;
       st_sidebar_info
         "Monitoring default processes from config.toml [process_dashboard].";
       st_warning
         "Could not find log directory from config. The dashboard cannot function.";
       st_markdown;
       st_info
         "Please select at least one process from the sidebar to begin monitoring." ],
     Ok tt).
Proof.
  assert (H1 : read_config (config_file world_with_empty_path)
               = Ok (PyStr "", PyList [])) by reflexivity.
  assert (H2 : py_truthy (PyStr "") = false) by reflexivity.
  split; [exact H1 | split; [exact H2 |]].
  exact (falsy_log_directory_is_no_directory Sample.to_datetime
           Sample.sort_values Sample.sort_values_desc
           world_with_empty_path _ _ H1 H2).
Defined.

(** ** White space around a line *)

Lemma ws1_not_in_sequence (a b c : N) :
  Str.ws1 c = true -> Str.ws2 a c = false /\ Str.ws3 a b c = false.
Proof.
  unfold Str.ws1, Str.ws2, Str.ws3. intros H.
  assert (Hc : (c <= 32)%N).
  { apply orb_true_iff in H as [H | H]; apply andb_true_iff in H as [_ H];
      apply N.leb_le in H; lia. }
  assert (H85 : (c =? 0x85)%N = false) by (apply N.eqb_neq; lia).
  assert (HA0 : (c =? 0xA0)%N = false) by (apply N.eqb_neq; lia).
  assert (H80 : (c =? 0x80)%N = false) by (apply N.eqb_neq; lia).
  assert (HA8 : (c =? 0xA8)%N = false) by (apply N.eqb_neq; lia).
  assert (HA9 : (c =? 0xA9)%N = false) by (apply N.eqb_neq; lia).
  assert (HAF : (c =? 0xAF)%N = false) by (apply N.eqb_neq; lia).
  assert (H9F : (c =? 0x9F)%N = false) by (apply N.eqb_neq; lia).
  assert (Hge : (0x80 <=? c)%N = false) by (apply N.leb_gt; lia).
  rewrite H85, HA0, H80, HA8, HA9, HAF, H9F, Hge. simpl.
  rewrite !andb_false_r. auto.
Qed.

Lemma drop_ws_cons (back : bool) (a : N) (l1 : list N) :
  Str.drop_ws back (a :: l1) =
  if Str.ws1 a then Str.drop_ws back l1
  else match l1 with
       | [] => a :: l1
       | b :: l2 =>
           if (if back then Str.ws2 b a else Str.ws2 a b)
           then Str.drop_ws back l2
           else match l2 with
                | [] => a :: l1
                | c :: l3 =>
                    if (if back then Str.ws3 c b a else Str.ws3 a b c)
                    then Str.drop_ws back l3
                    else a :: l1
                end
       end.
Proof. reflexivity. Qed.

(** White space appended to a text that is not all white space stays at its
    end when the white space at its head is dropped. *)
Lemma drop_ws_snoc (c : N) :
  Str.ws1 c = true ->
  forall (k : nat) (l : list N),
    (List.length l <= k)%nat ->
    Str.drop_ws false (l ++ [c]) =
    match Str.drop_ws false l with
    | [] => []
    | x :: r => (x :: r) ++ [c]
    end.
Proof.
  intros Hc. induction k as [| k IH]; intros l Hk.
  { destruct l; [| simpl in Hk; lia]. cbn [app]. rewrite drop_ws_cons, Hc.
    reflexivity. }
  destruct l as [| a l1].
  { cbn [app]. rewrite drop_ws_cons, Hc. reflexivity. }
  simpl in Hk. cbn [app]. rewrite !drop_ws_cons.
  destruct (Str.ws1 a); [apply IH; lia |].
  destruct l1 as [| b l2].
  { cbn [app]. destruct (ws1_not_in_sequence a a c Hc) as [H2 _].
    rewrite H2. reflexivity. }
  simpl in Hk. cbn [app].
  destruct (Str.ws2 a b); [apply IH; lia |].
  destruct l2 as [| d l3].
  { cbn [app]. destruct (ws1_not_in_sequence a b c Hc) as [_ H3].
    rewrite H3. reflexivity. }
  simpl in Hk. cbn [app].
  destruct (Str.ws3 a b d); [apply IH; lia | reflexivity].
Qed.

Lemma bytes_snoc (s : string) (c : ascii) :
  Str.bytes (s ++ String c EmptyString) = Str.bytes s ++ [N_of_ascii c].
Proof.
  unfold Str.bytes. induction s as [| a s IH]; simpl; [reflexivity |].
  now rewrite IH.
Qed.

Lemma strip_white_space_after (s : string) (c : ascii) :
  Str.ws1 (N_of_ascii c) = true ->
  Str.strip (s ++ String c EmptyString) = Str.strip s.
Proof.
  intros Hc. unfold Str.strip. rewrite bytes_snoc.
  rewrite (drop_ws_snoc _ Hc (List.length (Str.bytes s))) by lia.
  destruct (Str.drop_ws false (Str.bytes s)) as [| x r]; [reflexivity |].
  rewrite rev_app_distr. cbn [rev app]. rewrite drop_ws_cons, Hc.
  reflexivity.
Qed.

Lemma strip_white_space_before (s : string) (c : ascii) :
  Str.ws1 (N_of_ascii c) = true ->
  Str.strip (String c s) = Str.strip s.
Proof.
  intros Hc. unfold Str.strip.
  change (Str.bytes (String c s)) with (N_of_ascii c :: Str.bytes s).
  now rewrite drop_ws_cons, Hc.
Qed.

(** X16. A white space character of the ASCII range (tab, line feed,
    carriage return, space and the like) put before or after a line changes
    nothing of what the line adds: a line with its line feed is read like
    the same line without one. *)
Theorem white_space_around_a_line :
  forall (name : string) (all_records : list LogRecord) (line : string)
         (c : ascii),
    Str.ws1 (N_of_ascii c) = true ->
    read_line name all_records (line ++ String c EmptyString)
      = read_line name all_records line /\
    read_line name all_records (String c line)
      = read_line name all_records line.
Proof.
  intros name all_records line c Hc. unfold read_line.
  rewrite (strip_white_space_after line c Hc).
  rewrite (strip_white_space_before line c Hc).
  split; reflexivity.
Qed.

Lemma white_space_around_a_line_witness :
  Str.ws1 (N_of_ascii "010"%char) = true /\
  read_line "alpha" [] (sample_line ++ String "010"%char EmptyString)
    = Ok [sample_record].
Proof.
  assert (H : Str.ws1 (N_of_ascii "010"%char) = true) by reflexivity.
  split; [exact H |].
  rewrite (proj1 (white_space_around_a_line "alpha" [] sample_line
                    "010"%char H)).
  vm_compute. reflexivity.
Defined.
